(** * webdriverless: the WebDriver BiDi execution layer and its Tab/Browser wrappers

    A shallow embedding of [webdriverbidi.py], [tab.py] and [browser.py].

    - Python values that travel through the code (decoded JSON, [None],
      parameters, results) are the inductive [json]; [JNull] is [None].
    - A [dict] is an association list in insertion order, read with [dict_get]
      (first binding of the key).
    - [json.dumps], [json.loads] and the builtin [repr] belong to the Python
      runtime, not to the repository: the program is embedded in a Section
      over them, so every general theorem holds whatever they compute.
      Module [PyJson] gives an executable instance (Python's default output
      format, and a parser for JSON text without fractional numbers) used to
      run the program on literal wire text.
    - Effects are explicit: a state-and-exception monad [M] over [World],
      which holds the scripted servers, the one live websocket, and the
      chronological [trace] of connects, sends, receives, log records and
      closes. *)

From Stdlib Require Import String Ascii List ZArith Bool DecimalString.
Import ListNotations.
Open Scope string_scope.
Open Scope list_scope.
Open Scope Z_scope.

(* ================================================================= *)
(** ** Python values *)

#[local] Set Warnings "-register-all".

Inductive json : Type :=
  | JNull
  | JBool (b : bool)
  | JNum (n : Z)
  | JStr (s : string)
  | JList (l : list json)
  | JObj (d : list (string * json)).

(** Python truthiness, as tested by [if x := ...], [x or y] and [assert x]. *)
Definition truthy (v : json) : bool :=
  match v with
  | JNull => false
  | JBool b => b
  | JNum n => negb (n =? 0)
  | JStr s => negb (s =? "")%string
  | JList l => match l with [] => false | _ => true end
  | JObj d => match d with [] => false | _ => true end
  end.

(** [d.get(k)] on the bindings of a dict: [None] when the key is missing. *)
Fixpoint dict_get (d : list (string * json)) (k : string) : option json :=
  match d with
  | [] => None
  | (k', v) :: d' => if (k' =? k)%string then Some v else dict_get d' k
  end.

(** [v == "lit"] for a string literal: only a [str] compares equal to one. *)
Definition eq_str (v : json) (lit : string) : bool :=
  match v with
  | JStr s => (s =? lit)%string
  | _ => false
  end.

(** [x is not None]. *)
Definition is_not_None (v : json) : bool :=
  match v with
  | JNull => false
  | _ => true
  end.

(** [str(n)] for an [int]: decimal digits, with a leading minus sign. *)
Definition str_int (n : Z) : string := NilEmpty.string_of_int (Z.to_int n).

(* ================================================================= *)
(** ** Exceptions, outcomes, the world *)

Inductive exn : Type :=
  | ConnectionError           (* client.connect could not establish the connection *)
  | ConnectionClosed
  | JSONDecodeError
  | KeyError (k : string)
  | TypeError
  | AttributeError
  | AssertionError.

Inductive outcome (A : Type) : Type :=
  | Return (a : A)
  | Raise (e : exn).
Arguments Return {A} a.
Arguments Raise {A} e.

(** What an observer of the process sees, in order. *)
Inductive event : Type :=
  | EvConnect (uri : string)   (* client.connect(uri) was called *)
  | EvSend (text : string)     (* ws.send(text) delivered *)
  | EvRecv (text : string)     (* ws.recv() returned text *)
  | EvLog (record : string)    (* logging.error(record) *)
  | EvClose.                   (* the websocket was closed by its with-block *)

(** [net uri] lists, for the successive connections made to [uri], the frames
    the server will answer with, in order; no script left means the
    connection is refused.  A server answers one frame per command and closes
    the connection after the last frame of its script.  [inbox] and [closed]
    are the live websocket: the frames still to come, and whether the
    connection is closed, by the peer or by the program. *)
Record World : Type := mkWorld {
  net : string -> list (list string);
  inbox : list string;
  closed : bool;
  trace : list event
}.

Definition M (A : Type) : Type := World -> outcome A * World.

Definition ret {A} (a : A) : M A := fun w => (Return a, w).
Definition raise {A} (e : exn) : M A := fun w => (Raise e, w).
Definition bind {A B} (m : M A) (k : A -> M B) : M B :=
  fun w =>
    match m w with
    | (Return a, w') => k a w'
    | (Raise e, w') => (Raise e, w')
    end.

Declare Scope py_scope.
Delimit Scope py_scope with py.
Notation "x <- m ;; k" := (bind m (fun x => k))
  (at level 100, m at next level, right associativity) : py_scope.
Notation "m ;;; k" := (bind m (fun _ => k))
  (at level 100, right associativity) : py_scope.
Open Scope py_scope.

Definition emit (e : event) : M unit :=
  fun w => (Return tt, mkWorld (net w) (inbox w) (closed w) (trace w ++ [e])).

(** The [with cm as x: body] statement: [exit] receives the exception that
    left the body, if any, and answers whether to swallow it.  A swallowed
    exception continues after the block, which is [after]. *)
Definition with_ {A B} (enter : M A) (exit : option exn -> M bool)
    (body : A -> M B) (after : M B) : M B :=
  fun w =>
    match enter w with
    | (Raise e, w1) => (Raise e, w1)
    | (Return x, w1) =>
        match body x w1 with
        | (Return b, w2) =>
            match exit None w2 with
            | (Return _, w3) => (Return b, w3)
            | (Raise e', w3) => (Raise e', w3)
            end
        | (Raise e, w2) =>
            match exit (Some e) w2 with
            | (Return true, w3) => after w3
            | (Return false, w3) => (Raise e, w3)
            | (Raise e', w3) => (Raise e', w3)
            end
        end
    end.

(** [m[k]] with a string key. *)
Definition subscript (v : json) (k : string) : M json :=
  match v with
  | JObj d => match dict_get d k with
              | Some x => ret x
              | None => raise (KeyError k)
              end
  | _ => raise TypeError
  end.

(** [data.get(k)]: only a dict has the method. *)
Definition get (v : json) (k : string) : M json :=
  match v with
  | JObj d => match dict_get d k with
              | Some x => ret x
              | None => ret JNull
              end
  | _ => raise AttributeError
  end.

(* ================================================================= *)
(** ** The websocket *)

Definition update (f : string -> list (list string)) (k : string)
    (v : list (list string)) : string -> list (list string) :=
  fun k' => if (k' =? k)%string then v else f k'.

(** The peer has closed the connection once it has no frame left to send. *)
Definition gone (frames : list string) : bool :=
  match frames with
  | [] => true
  | _ :: _ => false
  end.

(** [client.connect(uri)] *)
Definition connect (uri : string) : M unit :=
  fun w =>
    let tr := trace w ++ [EvConnect uri] in
    match net w uri with
    | [] => (Raise ConnectionError, mkWorld (net w) (inbox w) (closed w) tr)
    | script :: later =>
        (Return tt, mkWorld (update (net w) uri later) script (gone script) tr)
    end.

(** Leaving [with client.connect(...)]: the connection is closed and the
    exception, if any, propagates. *)
Definition connection_exit (_ : option exn) : M bool :=
  fun w => (Return false, mkWorld (net w) [] true (trace w ++ [EvClose])).

(** [ws.send(text)]: [ConnectionClosed] as soon as the connection is closed,
    which it is once the peer's last frame has been received. *)
Definition ws_send (text : string) : M unit :=
  fun w =>
    if closed w then (Raise ConnectionClosed, w)
    else (Return tt, mkWorld (net w) (inbox w) false (trace w ++ [EvSend text])).

(** [ws.recv()]: the next frame, after which the connection is closed if
    that was the peer's last; [ConnectionClosed] when the connection is
    closed. *)
Definition ws_recv : M string :=
  fun w =>
    if closed w then (Raise ConnectionClosed, w)
    else match inbox w with
         | [] => (Raise ConnectionClosed, mkWorld (net w) [] true (trace w))
         | frame :: rest =>
             (Return frame,
              mkWorld (net w) rest (gone rest) (trace w ++ [EvRecv frame]))
         end.

Definition logging_error (record : string) : M unit := emit (EvLog record).

(* ================================================================= *)
(** ** webdriverbidi.py *)

Section Program.

Variable json_dumps : json -> string.
(** [None] stands for [json.JSONDecodeError]. *)
Variable json_loads : string -> option json.
(** [repr] of a value that is not a [str]. *)
Variable py_repr : json -> string.

(** [str(v)], as an f-string formats [{v}]. *)
Definition py_str (v : json) : string :=
  match v with
  | JStr s => s
  | _ => py_repr v
  end.

Definition _make_command (method : string) (params : json) : json :=
  JObj [ ("id", JNum 1);
         ("method", JStr method);
         ("params", if truthy params then params else JObj []) ].

Definition loads (text : string) : M json :=
  match json_loads text with
  | Some v => ret v
  | None => raise JSONDecodeError
  end.

Definition _send_command (method : string) (params : json) : M json :=
  ws_send (json_dumps (_make_command method params)) ;;;
  response <- ws_recv ;;
  if negb (response =? "")%string then
    data <- loads response ;;
    ty <- get data "type" ;;
    if eq_str ty "success" then
      subscript data "result"
    else
      ty' <- get data "type" ;;
      if eq_str ty' "error" then
        e <- subscript data "error" ;;
        m <- subscript data "message" ;;
        logging_error ("Error: " ++ py_str e ++ ", Message: " ++ py_str m)%string ;;;
        ret JNull
      else ret JNull
  else ret JNull.

(** *** class Session *)

Definition Session__new : M json :=
  response <- _send_command "session.new" (JObj [("capabilities", JObj [])]) ;;
  if truthy response then subscript response "sessionId" else ret JNull.

Definition Session__end : M bool :=
  r <- _send_command "session.end" (JObj []) ;;
  ret (is_not_None r).

(** [assert b], as Python runs it unless started with [-O]. *)
Definition assert_ (b : bool) : M unit :=
  if b then ret tt else raise AssertionError.

Definition Session___enter__ : M unit :=
  sid <- Session__new ;;
  assert_ (truthy sid).

Definition Session___exit__ (_ : option exn) : M bool :=
  ok <- Session__end ;;
  assert_ ok ;;;
  ret false.

Definition Session___call__ (method : string) (params : json) : M json :=
  _send_command method params.

Definition endpoint (port : Z) : string :=
  ("ws://localhost:" ++ str_int port ++ "/session")%string.

Definition execute (port : Z) (method : string) (params : json) : M json :=
  with_ (connect (endpoint port)) connection_exit
    (fun _ =>
       with_ Session___enter__ Session___exit__
         (fun _ => Session___call__ method params)
         (ret JNull))
    (ret JNull).

End Program.

(* ================================================================= *)
(** ** tab.py *)

Module Tab.

Record Tab : Type := mkTab {
  port : Z;
  id : json;
  url : json
}.

(** A method that may assign to [self] answers the outcome, the object as the
    call leaves it, and the world. *)
Definition Method (A : Type) : Type := World -> outcome A * Tab * World.

Section Methods.

Variable json_dumps : json -> string.
Variable json_loads : string -> option json.
Variable py_repr : json -> string.

Let execute := execute json_dumps json_loads py_repr.

Definition navigate (self : Tab) (url' : string) : Method bool :=
  fun w =>
    match execute (port self) "browsingContext.navigate"
            (JObj [ ("url", JStr url'); ("context", id self);
                    ("wait", JStr "complete") ]) w with
    | (Raise e, w1) => (Raise e, self, w1)
    | (Return result, w1) =>
        if truthy result then
          match subscript result "url" w1 with
          | (Raise e, w2) => (Raise e, self, w2)
          | (Return u, w2) => (Return true, mkTab (port self) (id self) u, w2)
          end
        else (Return false, self, w1)
    end.

Definition reload (self : Tab) : Method bool :=
  fun w =>
    match execute (port self) "browsingContext.reload"
            (JObj [ ("context", id self); ("wait", JStr "complete") ]) w with
    | (Raise e, w1) => (Raise e, self, w1)
    | (Return response, w1) =>
        if truthy response then
          match subscript response "url" w1 with
          | (Raise e, w2) => (Raise e, self, w2)
          | (Return u, w2) => (Return true, mkTab (port self) (id self) u, w2)
          end
        else (Return false, self, w1)
    end.

End Methods.

End Tab.

(* ================================================================= *)
(** ** browser.py *)

Module Browser.

Record Browser : Type := mkBrowser {
  port : Z
}.

(** [for x in v]: a list yields its items, a dict its keys, a str its
    characters; nothing else in [json] is iterable. *)
Fixpoint chars (s : string) : list json :=
  match s with
  | EmptyString => []
  | String c r => JStr (String c EmptyString) :: chars r
  end.

Definition iterate (v : json) : M (list json) :=
  match v with
  | JList l => ret l
  | JObj d => ret (map (fun kv => JStr (fst kv)) d)
  | JStr s => ret (chars s)
  | _ => raise TypeError
  end.

Section Methods.

Variable json_dumps : json -> string.
Variable json_loads : string -> option json.
Variable py_repr : json -> string.

Let execute := execute json_dumps json_loads py_repr.

(** The comprehension of [get_tabs], one item at a time. *)
Fixpoint tabs_of (self : Browser) (contexts : list json) : M (list Tab.Tab) :=
  match contexts with
  | [] => ret []
  | context :: rest =>
      i <- subscript context "context" ;;
      u <- subscript context "url" ;;
      ts <- tabs_of self rest ;;
      ret (Tab.mkTab (port self) i u :: ts)
  end.

Definition get_tabs (self : Browser) : M (list Tab.Tab) :=
  response <- execute (port self) "browsingContext.getTree"
                (JObj [("maxDepth", JNum 1)]) ;;
  if truthy response then
    contexts <- subscript response "contexts" ;;
    items <- iterate contexts ;;
    tabs_of self items
  else ret [].

Definition create_tab (self : Browser) : M (option Tab.Tab) :=
  context <- execute (port self) "browsingContext.create"
               (JObj [("type", JStr "tab")]) ;;
  if truthy context then
    i <- subscript context "context" ;;
    ret (Some (Tab.mkTab (port self) i (JStr "")))
  else ret None.

End Methods.

End Browser.

(** The tab that one entry of a [contexts] list describes, in the words of
    the interface: its [context] as id, its [url], and the browser's port. *)
Definition tab_of_entry (port : Z) (entry : json) : option Tab.Tab :=
  match entry with
  | JObj d =>
      match dict_get d "context", dict_get d "url" with
      | Some i, Some u => Some (Tab.mkTab port i u)
      | _, _ => None
      end
  | _ => None
  end.

(* ================================================================= *)
(** ** An executable [json] codec

    [PyJson.dumps] prints a value the way [json.dumps] does with its default
    arguments (separators [", "] and [": "], [ensure_ascii]); a character of a
    Rocq string stands for the code point of the same number.
    [PyJson.loads] parses JSON text: whitespace, [null], [true], [false],
    integers, strings with escapes, arrays and objects (a repeated key keeps
    its first position and its last value).  Text using what [json] cannot
    hold (a fraction or exponent, [NaN], [Infinity], an escape above
    code point 255) is outside this instance: it is answered with [None] here and
    is used by no statement below. *)

Module PyJson.

Definition dquote : ascii := "034"%char.
Definition backslash : ascii := "\"%char.

Definition hex_digit (n : N) : ascii :=
  ascii_of_N (if (n <? 10)%N then 48 + n else 87 + n).

Definition escape_char (c : ascii) : string :=
  let n := N_of_ascii c in
  if (n =? 34)%N then String backslash (String dquote EmptyString)
  else if (n =? 92)%N then String backslash (String backslash EmptyString)
  else if (n =? 10)%N then String backslash "n"
  else if (n =? 13)%N then String backslash "r"
  else if (n =? 9)%N then String backslash "t"
  else if (n =? 12)%N then String backslash "f"
  else if (n =? 8)%N then String backslash "b"
  else if ((32 <=? n) && (n <=? 126))%N then String c EmptyString
  else String backslash
         (String "u" (String "0" (String "0"
            (String (hex_digit (n / 16)) (String (hex_digit (n mod 16)) EmptyString))))).

Fixpoint escape (s : string) : string :=
  match s with
  | EmptyString => EmptyString
  | String c r => (escape_char c ++ escape r)%string
  end.

Definition quote (s : string) : string :=
  String dquote (escape s ++ String dquote EmptyString)%string.

Fixpoint dumps (v : json) : string :=
  match v with
  | JNull => "null"
  | JBool true => "true"
  | JBool false => "false"
  | JNum n => str_int n
  | JStr s => quote s
  | JList l =>
      ("[" ++
       (fix items (l : list json) : string :=
          match l with
          | [] => ""
          | x :: r =>
              match r with
              | [] => dumps x
              | _ => dumps x ++ ", " ++ items r
              end
          end) l ++ "]")%string
  | JObj d =>
      ("{" ++
       (fix members (d : list (string * json)) : string :=
          match d with
          | [] => ""
          | (k, x) :: r =>
              match r with
              | [] => quote k ++ ": " ++ dumps x
              | _ => quote k ++ ": " ++ dumps x ++ ", " ++ members r
              end
          end) d ++ "}")%string
  end.

(** [repr], as [str] applies it to anything but a [str]: Python's spelling
    of the constants, and strings in single quotes unless they hold a single
    quote and no double quote. *)
Fixpoint contains (c : ascii) (s : string) : bool :=
  match s with
  | EmptyString => false
  | String c' r => Ascii.eqb c c' || contains c r
  end.

Definition repr_char (quote : ascii) (c : ascii) : string :=
  let n := N_of_ascii c in
  if (Ascii.eqb c quote || (n =? 92)%N)%bool then String backslash (String c EmptyString)
  else if (n =? 9)%N then String backslash "t"
  else if (n =? 10)%N then String backslash "n"
  else if (n =? 13)%N then String backslash "r"
  else if ((n <? 32) || (n =? 127) || ((128 <=? n) && (n <=? 160)) || (n =? 173))%N
  then String backslash
         (String "x" (String (hex_digit (n / 16))
                        (String (hex_digit (n mod 16)) EmptyString)))
  else String c EmptyString.

Definition repr_str (s : string) : string :=
  let quote := if (contains "'" s && negb (contains dquote s))%bool
               then dquote else "'"%char in
  String quote
    ((fix go (s : string) : string :=
        match s with
        | EmptyString => EmptyString
        | String c r => (repr_char quote c ++ go r)%string
        end) s ++ String quote EmptyString)%string.

Fixpoint repr (v : json) : string :=
  match v with
  | JNull => "None"
  | JBool true => "True"
  | JBool false => "False"
  | JNum n => str_int n
  | JStr s => repr_str s
  | JList l =>
      ("[" ++
       (fix items (l : list json) : string :=
          match l with
          | [] => ""
          | x :: r =>
              match r with
              | [] => repr x
              | _ => repr x ++ ", " ++ items r
              end
          end) l ++ "]")%string
  | JObj d =>
      ("{" ++
       (fix members (d : list (string * json)) : string :=
          match d with
          | [] => ""
          | (k, x) :: r =>
              match r with
              | [] => repr_str k ++ ": " ++ repr x
              | _ => repr_str k ++ ": " ++ repr x ++ ", " ++ members r
              end
          end) d ++ "}")%string
  end.

(** *** Parsing *)

Definition is_ws (c : ascii) : bool :=
  let n := N_of_ascii c in
  ((n =? 32) || (n =? 9) || (n =? 10) || (n =? 13))%N.

Fixpoint skip_ws (s : string) : string :=
  match s with
  | String c r => if is_ws c then skip_ws r else s
  | EmptyString => s
  end.

Definition digit_of (c : ascii) : option Z :=
  let n := N_of_ascii c in
  if ((48 <=? n) && (n <=? 57))%N then Some (Z.of_N (n - 48)) else None.

Definition hex_of (c : ascii) : option N :=
  let n := N_of_ascii c in
  if ((48 <=? n) && (n <=? 57))%N then Some (n - 48)%N
  else if ((97 <=? n) && (n <=? 102))%N then Some (n - 87)%N
  else if ((65 <=? n) && (n <=? 70))%N then Some (n - 55)%N
  else None.

(** Digits after the first one of an integer. *)
Fixpoint more_digits (acc : Z) (s : string) : Z * string :=
  match s with
  | String c r =>
      match digit_of c with
      | Some d => more_digits (acc * 10 + d) r
      | None => (acc, s)
      end
  | EmptyString => (acc, s)
  end.

Definition starts_fraction (s : string) : bool :=
  match s with
  | String c _ =>
      let n := N_of_ascii c in ((n =? 46) || (n =? 101) || (n =? 69))%N
  | EmptyString => false
  end.

(** An integer literal: [0], or a nonzero digit and more digits; not
    followed by a fraction or an exponent. *)
Definition parse_nat (s : string) : option (Z * string) :=
  match s with
  | String c r =>
      match digit_of c with
      | Some 0 => if starts_fraction r then None else Some (0, r)
      | Some d =>
          let '(n, rest) := more_digits d r in
          if starts_fraction rest then None else Some (n, rest)
      | None => None
      end
  | EmptyString => None
  end.

Definition parse_int (s : string) : option (Z * string) :=
  match s with
  | String "-" r =>
      match parse_nat r with
      | Some (n, rest) => Some (- n, rest)
      | None => None
      end
  | _ => parse_nat s
  end.

(** The characters of a string after its opening quote, up to the closing one. *)
Fixpoint parse_chars (s : string) : option (string * string) :=
  match s with
  | EmptyString => None
  | String c r =>
      let n := N_of_ascii c in
      if (n =? 34)%N then Some (EmptyString, r)
      else if (n =? 92)%N then
        match r with
        | String e r1 =>
            let plain (c' : ascii) :=
              match parse_chars r1 with
              | Some (t, rest) => Some (String c' t, rest)
              | None => None
              end in
            let m := N_of_ascii e in
            if (m =? 34)%N then plain dquote
            else if (m =? 92)%N then plain backslash
            else if (m =? 47)%N then plain "/"%char
            else if (m =? 110)%N then plain "010"%char
            else if (m =? 114)%N then plain "013"%char
            else if (m =? 116)%N then plain "009"%char
            else if (m =? 102)%N then plain "012"%char
            else if (m =? 98)%N then plain "008"%char
            else if (m =? 117)%N then
              match r1 with
              | String h1 (String h2 (String h3 (String h4 r2))) =>
                  match hex_of h1, hex_of h2, hex_of h3, hex_of h4 with
                  | Some 0%N, Some 0%N, Some a, Some b =>
                      match parse_chars r2 with
                      | Some (t, rest) => Some (String (ascii_of_N (16 * a + b)) t, rest)
                      | None => None
                      end
                  | _, _, _, _ => None
                  end
              | _ => None
              end
            else None
        | EmptyString => None
        end
      else if (n <? 32)%N then None
      else
        match parse_chars r with
        | Some (t, rest) => Some (String c t, rest)
        | None => None
        end
  end.

(** Assignment [d[k] = v]. *)
Fixpoint dict_set (d : list (string * json)) (k : string) (v : json)
    : list (string * json) :=
  match d with
  | [] => [(k, v)]
  | (k', v') :: r =>
      if (k' =? k)%string then (k, v) :: r else (k', v') :: dict_set r k v
  end.

(** [s] with the literal [lit] taken off its front. *)
Fixpoint expect (lit : string) (s : string) : option string :=
  match lit with
  | EmptyString => Some s
  | String a lit' =>
      match s with
      | String b r => if Ascii.eqb a b then expect lit' r else None
      | EmptyString => None
      end
  end.

Fixpoint parse_value (fuel : nat) (s : string) : option (json * string) :=
  match fuel with
  | O => None
  | S fuel' =>
      match skip_ws s with
      | EmptyString => None
      | String c r as s' =>
          let n := N_of_ascii c in
          if (n =? 34)%N then
            match parse_chars r with
            | Some (t, rest) => Some (JStr t, rest)
            | None => None
            end
          else if (n =? 91)%N then
            match skip_ws r with
            | String "]" rest => Some (JList [], rest)
            | _ => parse_items fuel' r []
            end
          else if (n =? 123)%N then
            match skip_ws r with
            | String "}" rest => Some (JObj [], rest)
            | _ => parse_members fuel' r []
            end
          else if (n =? 110)%N then
            match expect "null" s' with
            | Some rest => Some (JNull, rest)
            | None => None
            end
          else if (n =? 116)%N then
            match expect "true" s' with
            | Some rest => Some (JBool true, rest)
            | None => None
            end
          else if (n =? 102)%N then
            match expect "false" s' with
            | Some rest => Some (JBool false, rest)
            | None => None
            end
          else
            match parse_int s' with
            | Some (z, rest) => Some (JNum z, rest)
            | None => None
            end
      end
  end
with parse_items (fuel : nat) (s : string) (acc : list json)
    : option (json * string) :=
  match fuel with
  | O => None
  | S fuel' =>
      match parse_value fuel' s with
      | Some (v, rest) =>
          match skip_ws rest with
          | String "," rest' => parse_items fuel' rest' (acc ++ [v])
          | String "]" rest' => Some (JList (acc ++ [v]), rest')
          | _ => None
          end
      | None => None
      end
  end
with parse_members (fuel : nat) (s : string) (acc : list (string * json))
    : option (json * string) :=
  match fuel with
  | O => None
  | S fuel' =>
      match skip_ws s with
      | String c r =>
          if (N_of_ascii c =? 34)%N then
            match parse_chars r with
            | Some (k, rest) =>
                match skip_ws rest with
                | String ":" rest1 =>
                    match parse_value fuel' rest1 with
                    | Some (v, rest2) =>
                        match skip_ws rest2 with
                        | String "," rest3 => parse_members fuel' rest3 (dict_set acc k v)
                        | String "}" rest3 => Some (JObj (dict_set acc k v), rest3)
                        | _ => None
                        end
                    | None => None
                    end
                | _ => None
                end
            | None => None
            end
          else None
      | EmptyString => None
      end
  end.

Definition loads (text : string) : option json :=
  match parse_value (2 * String.length text + 2)%nat text with
  | Some (v, rest) =>
      match skip_ws rest with
      | EmptyString => Some v
      | _ => None
      end
  | None => None
  end.

(** Wire text is written with [q] for the double quote. *)
Definition q : string := String dquote EmptyString.

End PyJson.

(* ================================================================= *)
(** ** Replies, in the words of the wire protocol *)

Section Envelopes.

Variable json_loads : string -> option json.

(** A frame that decodes to [{"type": "success", "result": R, ...}]. *)
Definition Success (r : string) (R : json) : Prop :=
  r <> "" /\
  exists d, json_loads r = Some (JObj d) /\
            dict_get d "type" = Some (JStr "success") /\
            dict_get d "result" = Some R.

(** A frame that decodes to [{"type": "error", "error": kind, "message": msg, ...}]. *)
Definition Error (r : string) (kind msg : json) : Prop :=
  r <> "" /\
  exists d, json_loads r = Some (JObj d) /\
            dict_get d "type" = Some (JStr "error") /\
            dict_get d "error" = Some kind /\
            dict_get d "message" = Some msg.

(** A JSON object whose ["type"] is missing, or is neither ["success"] nor
    ["error"]. *)
Definition Undiscriminated (r : string) : Prop :=
  r <> "" /\
  exists d, json_loads r = Some (JObj d) /\
            (forall t, dict_get d "type" = Some t ->
                       eq_str t "success" = false /\ eq_str t "error" = false).

(** Text that is not JSON. *)
Definition Invalid (r : string) : Prop :=
  r <> "" /\ json_loads r = None.

(** An envelope without the entry [key] that its ["type"] promises:
    ["result"] for a success, ["error"] or else ["message"] for an error. *)
Definition Incomplete (r : string) (key : string) : Prop :=
  r <> "" /\
  exists d, json_loads r = Some (JObj d) /\
            ((dict_get d "type" = Some (JStr "success")
              /\ dict_get d "result" = None /\ key = "result")
             \/ (dict_get d "type" = Some (JStr "error")
                 /\ dict_get d "error" = None /\ key = "error")
             \/ (dict_get d "type" = Some (JStr "error")
                 /\ (exists kind, dict_get d "error" = Some kind)
                 /\ dict_get d "message" = None /\ key = "message")).

(** The answer to [session.new] carries a session identifier. *)
Definition SessionCreated (r : string) : Prop :=
  exists d sid, Success r (JObj d) /\
                dict_get d "sessionId" = Some sid /\ truthy sid = true.

(** The answer to [session.end] is a success with some result. *)
Definition SessionEnded (r : string) : Prop :=
  exists R, Success r R /\ R <> JNull.

(** An answer that gives [_send_command] nothing to return: an error
    envelope, an empty frame, an undiscriminated object, or a success whose
    result is [null]. *)
Definition Absent (r : string) : Prop :=
  (exists kind msg, Error r kind msg) \/ r = "" \/ Undiscriminated r \/ Success r JNull.

(** An answer to [session.new] that creates no session: nothing to return,
    an empty result, or an empty session identifier. *)
Definition NotCreated (r : string) : Prop :=
  Absent r
  \/ (exists R, Success r R /\ truthy R = false)
  \/ (exists d sid, Success r (JObj d) /\
                    dict_get d "sessionId" = Some sid /\ truthy sid = false).

End Envelopes.

(** The events of a trace that are sends, receives, log records. *)
Definition sent (tr : list event) : list string :=
  flat_map (fun e => match e with EvSend t => [t] | _ => [] end) tr.

Definition logged (tr : list event) : list string :=
  flat_map (fun e => match e with EvLog t => [t] | _ => [] end) tr.

Definition connected (tr : list event) : list string :=
  flat_map (fun e => match e with EvConnect u => [u] | _ => [] end) tr.

Definition closes (tr : list event) : nat :=
  List.length (filter (fun e => match e with EvClose => true | _ => false end) tr).

(** Events among which nothing is sent, opened or closed. *)
Definition quiet (evs : list event) : Prop :=
  sent evs = [] /\ connected evs = [] /\ closes evs = 0%nat.

(* ================================================================= *)
(** ** Literal wire text and scripted servers, for running the program *)

Module Wire.

Import PyJson.

Definition qs (s : string) : string := (q ++ s ++ q)%string.

(** [{"type":"success","result":<result>}] *)
Definition success (result : string) : string :=
  ("{" ++ qs "type" ++ ":" ++ qs "success" ++ "," ++ qs "result" ++ ":" ++ result ++ "}")%string.

(** [{"type":"error","error":"<kind>","message":"<msg>"}] *)
Definition error (kind msg : string) : string :=
  ("{" ++ qs "type" ++ ":" ++ qs "error" ++ "," ++ qs "error" ++ ":" ++ qs kind
       ++ "," ++ qs "message" ++ ":" ++ qs msg ++ "}")%string.

(** [{"<k>":"<v>"}] *)
Definition obj1 (k v : string) : string :=
  ("{" ++ qs k ++ ":" ++ qs v ++ "}")%string.

(** [{"type":"success","result":{"sessionId":"s-1","capabilities":{}}}] *)
Definition new_ok : string :=
  success ("{" ++ qs "sessionId" ++ ":" ++ qs "s-1" ++ "," ++ qs "capabilities" ++ ":{}}").

(** [{"type":"success","result":{}}] *)
Definition end_ok : string := success "{}".

(** [{"type":"event","method":"log.entryAdded"}] *)
Definition stray_event : string :=
  ("{" ++ qs "type" ++ ":" ++ qs "event" ++ "," ++ qs "method" ++ ":"
       ++ qs "log.entryAdded" ++ "}")%string.

(** [{"type":"success","result":{"contexts":[
      {"context":"ctx-1","url":"https://example.com"},
      {"context":"ctx-2","url":"about:blank"}]}}] *)
Definition tree_reply : string :=
  success ("{" ++ qs "contexts" ++ ":[{" ++ qs "context" ++ ":" ++ qs "ctx-1" ++ ","
               ++ qs "url" ++ ":" ++ qs "https://example.com" ++ "},{"
               ++ qs "context" ++ ":" ++ qs "ctx-2" ++ ","
               ++ qs "url" ++ ":" ++ qs "about:blank" ++ "}]}").

(** A fresh process facing one server on [port] that plays [scripts], one
    script per connection. *)
Definition serving (port : Z) (scripts : list (list string)) : World :=
  mkWorld (fun uri => if (uri =? endpoint port)%string then scripts else [])
          [] true [].

(** A session in which the method is answered with [reply]. *)
Definition session (reply : string) : list string := [new_ok; reply; end_ok].

Definition run_execute := execute dumps loads repr.
Definition run_send_command := _send_command dumps loads repr.
Definition run_navigate := Tab.navigate dumps loads repr.
Definition run_reload := Tab.reload dumps loads repr.
Definition run_get_tabs := Browser.get_tabs dumps loads repr.
Definition run_create_tab := Browser.create_tab dumps loads repr.

End Wire.

(* ================================================================= *)
(** ** tab.py, the remaining methods

    [evaluate] writes to standard output, which [World] does not hold: these
    methods run in [P], the same monad over a [Process] that adds the lines
    printed so far. *)

Record Process : Type := mkProcess {
  world : World;
  stdout : list string
}.

Definition P (A : Type) : Type := Process -> outcome A * Process.

Definition pret {A} (a : A) : P A := fun p => (Return a, p).
Definition pbind {A B} (m : P A) (k : A -> P B) : P B :=
  fun p =>
    match m p with
    | (Return a, p') => k a p'
    | (Raise e, p') => (Raise e, p')
    end.

(** A computation that does not print. *)
Definition lift {A} (m : M A) : P A :=
  fun p =>
    match m (world p) with
    | (o, w') => (o, mkProcess w' (stdout p))
    end.

(** [print(line)] *)
Definition print (line : string) : P unit :=
  fun p => (Return tt, mkProcess (world p) (stdout p ++ [line])).

Notation "x <~ m ;; k" := (pbind m (fun x => k))
  (at level 100, m at next level, right associativity) : py_scope.
Notation "m ~;; k" := (pbind m (fun _ => k))
  (at level 100, right associativity) : py_scope.

Module TabOps.

Import Tab.

(** The double quote of the one script that has some. *)
Definition dq : string := String "034"%char EmptyString.

Section Methods.

Variable json_dumps : json -> string.
Variable json_loads : string -> option json.
Variable py_repr : json -> string.

Let execute := execute json_dumps json_loads py_repr.

Definition __str__ (self : Tab) : string :=
  ("Tab(port=" ++ str_int (port self) ++ ", id=" ++ py_str py_repr (id self)
     ++ ", url=" ++ py_str py_repr (url self) ++ ")")%string.

Definition close (self : Tab) : M bool :=
  r <- execute (port self) "browsingContext.close" (JObj [("context", id self)]) ;;
  ret (is_not_None r).

Definition evaluate (self : Tab) (script : string) : P json :=
  response <~ lift (execute (port self) "script.evaluate"
                      (JObj [ ("expression", JStr script);
                              ("target", JObj [("context", id self)]);
                              ("awaitPromise", JBool true) ])) ;;
  if truthy response then
    print ("Evaluated script: " ++ script ++ " -> " ++ py_str py_repr response)%string ~;;
    r <~ lift (get response "result") ;;
    pret (if truthy r then r else JNull)
  else pret JNull.

Definition has_element_attribute (self : Tab) (query attribute : string) : P json :=
  response <~ evaluate self (" " ++ query ++ ".hasAttribute('" ++ attribute ++ "') ")%string ;;
  if truthy response then
    t <~ lift (subscript response "type") ;;
    if negb (eq_str t "null") then lift (subscript response "value")
    else pret JNull
  else pret JNull.

Definition get_element_attribute (self : Tab) (query attribute : string) : P json :=
  response <~ evaluate self (" " ++ query ++ "." ++ attribute ++ " ")%string ;;
  if truthy response then
    t <~ lift (subscript response "type") ;;
    if negb (eq_str t "null") then lift (subscript response "value")
    else pret JNull
  else pret JNull.

Definition set_element_attribute (self : Tab) (query attribute value : string)
    : P bool :=
  r <~ evaluate self
         (String.concat ";"
            [ (" var element = " ++ query ++ " ")%string;
              (" element." ++ attribute ++ " = '" ++ value ++ "' ")%string;
              " element.dispatchEvent(new Event('input')) ";
              " element.dispatchEvent(new Event('change')) " ]) ;;
  pret (is_not_None r).

Definition remove_element_attribute (self : Tab) (query attribute : string) : P bool :=
  r <~ evaluate self (" " ++ query ++ ".removeAttribute('" ++ attribute ++ "') ")%string ;;
  pret (is_not_None r).

Definition is_element_found (self : Tab) (query : string) : P json :=
  result <~ evaluate self query ;;
  if truthy result then
    t <~ lift (subscript result "type") ;;
    pret (JBool (negb (eq_str t "null")))
  else pret JNull.

Definition is_element_displayed (self : Tab) (query : string) : P json :=
  response <~ evaluate self
                (String.concat ";"
                   [ (" var element = " ++ query ++ " ")%string;
                     " var rect = element.getBoundingClientRect() ";
                     String.concat "&&"
                       [ "rect.top >= 0";
                         "rect.left >= 0";
                         "rect.bottom <= (window.innerHeight || document.documentElement.clientHeight)";
                         "rect.right <= (window.innerWidth || document.documentElement.clientWidth)" ] ]) ;;
  if truthy response then lift (subscript response "value") else pret JNull.

Definition is_element_disabled (self : Tab) (query : string) : P json :=
  has_element_attribute self query "disabled".

Definition is_element_equal_to (self : Tab) (query1 query2 : string) : P json :=
  result <~ evaluate self (" " ++ query1 ++ " === " ++ query2 ++ " ")%string ;;
  if truthy result then lift (subscript result "value") else pret JNull.

Definition focus_element (self : Tab) (query : string) : P bool :=
  r <~ evaluate self (" " ++ query ++ ".focus() ")%string ;;
  pret (is_not_None r).

Definition click_element (self : Tab) (query : string) : P bool :=
  r <~ evaluate self (" " ++ query ++ ".click() ")%string ;;
  pret (is_not_None r).

Definition scroll_element (self : Tab) (query : string) : P bool :=
  r <~ evaluate self
         (" " ++ query ++ ".scrollIntoView({" ++ dq ++ "block" ++ dq ++ ": "
              ++ dq ++ "center" ++ dq ++ ", " ++ dq ++ "inline" ++ dq ++ ": "
              ++ dq ++ "nearest" ++ dq ++ "}) ")%string ;;
  pret (is_not_None r).

End Methods.

End TabOps.

(** The parameters [evaluate] sends. *)
Definition evaluate_params (self : Tab.Tab) (script : string) : json :=
  JObj [ ("expression", JStr script);
         ("target", JObj [("context", Tab.id self)]);
         ("awaitPromise", JBool true) ].

(** More literal wire text, and the remaining methods on the executable codec. *)
Module Replies.

Import PyJson Wire.

(** [{"type":"<ty>","value":"<v>"}] *)
Definition remote_string (v : string) : string :=
  ("{" ++ qs "type" ++ ":" ++ qs "string" ++ "," ++ qs "value" ++ ":" ++ qs v ++ "}")%string.

(** [{"type":"<ty>"}] *)
Definition remote (ty : string) : string := obj1 "type" ty.

(** The answer to [script.evaluate] when the script ran:
    [{"type":"success","result":{"type":"success","result":<value>,"realm":"r-1"}}] *)
Definition evaluated (value : string) : string :=
  success ("{" ++ qs "type" ++ ":" ++ qs "success" ++ "," ++ qs "result" ++ ":" ++ value
               ++ "," ++ qs "realm" ++ ":" ++ qs "r-1" ++ "}").

(** The answer to [script.evaluate] when the script threw:
    [{"type":"success","result":{"type":"exception","realm":"r-1"}}] *)
Definition threw : string :=
  success ("{" ++ qs "type" ++ ":" ++ qs "exception" ++ "," ++ qs "realm" ++ ":"
               ++ qs "r-1" ++ "}").

(** [{"type":"success","result":{"contexts":[
      {"context":"ctx-1","url":"https://example.com"},
      {"context":"ctx-2"}]}}]: the second entry has no url. *)
Definition broken_tree : string :=
  success ("{" ++ qs "contexts" ++ ":[{" ++ qs "context" ++ ":" ++ qs "ctx-1" ++ ","
               ++ qs "url" ++ ":" ++ qs "https://example.com" ++ "},{"
               ++ qs "context" ++ ":" ++ qs "ctx-2" ++ "}]}").

(** [{"type":"success"}] and [{"type":"error","error":"unknown error"}] and [[1]] *)
Definition success_without_result : string := obj1 "type" "success".
Definition error_without_message : string :=
  ("{" ++ qs "type" ++ ":" ++ qs "error" ++ "," ++ qs "error" ++ ":"
       ++ qs "unknown error" ++ "}")%string.

(** [{"type":"success","result":{"contexts":{}}}] *)
Definition empty_contexts : string :=
  success ("{" ++ qs "contexts" ++ ":{}}").

Definition tab1 : Tab.Tab := Tab.mkTab 9222 (JStr "ctx-1") (JStr "about:blank").

Definition process (w : World) : Process := mkProcess w [].

Definition run_close := TabOps.close dumps loads repr.
Definition run_evaluate := TabOps.evaluate dumps loads repr.
Definition run_has_element_attribute := TabOps.has_element_attribute dumps loads repr.
Definition run_get_element_attribute := TabOps.get_element_attribute dumps loads repr.
Definition run_set_element_attribute := TabOps.set_element_attribute dumps loads repr.
Definition run_remove_element_attribute := TabOps.remove_element_attribute dumps loads repr.
Definition run_is_element_found := TabOps.is_element_found dumps loads repr.
Definition run_is_element_displayed := TabOps.is_element_displayed dumps loads repr.
Definition run_is_element_disabled := TabOps.is_element_disabled dumps loads repr.
Definition run_is_element_equal_to := TabOps.is_element_equal_to dumps loads repr.
Definition run_focus_element := TabOps.focus_element dumps loads repr.
Definition run_click_element := TabOps.click_element dumps loads repr.
Definition run_scroll_element := TabOps.scroll_element dumps loads repr.

End Replies.

(** A step of the process that opened exactly one connection, to [port] on
    localhost. *)
Definition one_connection (port : Z) (before after : World) : Prop :=
  connected (trace after) = connected (trace before) ++ [endpoint port].

(* ================================================================= *)
(** * Properties *)

Create Rewrite HintDb trace_db.

Section Theory.

Variable json_dumps : json -> string.
Variable json_loads : string -> option json.
Variable py_repr : json -> string.

Local Abbreviation send_command := (_send_command json_dumps json_loads py_repr).
Local Abbreviation wire method params := (json_dumps (_make_command method params)).
Local Abbreviation new_wire := (wire "session.new" (JObj [("capabilities", JObj [])])).
Local Abbreviation end_wire := (wire "session.end" (JObj [])).
Local Abbreviation log_line kind msg :=
  ("Error: " ++ py_str py_repr kind ++ ", Message: " ++ py_str py_repr msg)%string.
Local Abbreviation exec := (execute json_dumps json_loads py_repr).
Local Abbreviation session_block method params :=
  (with_ (Session___enter__ json_dumps json_loads py_repr)
         (Session___exit__ json_dumps json_loads py_repr)
         (fun _ => Session___call__ json_dumps json_loads py_repr method params)
         (ret JNull)).

(** ** One command on an open connection *)

Lemma nonempty_eqb (r : string) : r <> "" -> (r =? "")%string = false.
Proof. intro H. now apply String.eqb_neq. Qed.

Ltac step_command Hne :=
  unfold _send_command, bind, ws_send, ws_recv, loads; cbn;
  rewrite (nonempty_eqb _ Hne); cbn.

Lemma send_command_success n r rest tr method params R :
  Success json_loads r R ->
  send_command method params (mkWorld n (r :: rest) false tr)
  = (Return R, mkWorld n rest (gone rest) (tr ++ [EvSend (wire method params); EvRecv r])).
Proof.
  intros [Hne (d & Hl & Ht & Hr)]. step_command Hne.
  rewrite Hl; cbn. rewrite Ht; cbn. rewrite Hr; cbn.
  now rewrite <- app_assoc.
Qed.

Lemma send_command_error n r rest tr method params kind msg :
  Error json_loads r kind msg ->
  send_command method params (mkWorld n (r :: rest) false tr)
  = (Return JNull,
     mkWorld n rest (gone rest)
       (tr ++ [EvSend (wire method params); EvRecv r; EvLog (log_line kind msg)])).
Proof.
  intros [Hne (d & Hl & Ht & He & Hm)]. step_command Hne.
  rewrite Hl; cbn. rewrite Ht; cbn. rewrite He; cbn. rewrite Hm; cbn.
  now rewrite <- !app_assoc.
Qed.

Lemma send_command_undiscriminated n r rest tr method params :
  Undiscriminated json_loads r ->
  send_command method params (mkWorld n (r :: rest) false tr)
  = (Return JNull, mkWorld n rest (gone rest) (tr ++ [EvSend (wire method params); EvRecv r])).
Proof.
  intros [Hne (d & Hl & Ht)]. step_command Hne.
  rewrite Hl; cbn.
  destruct (dict_get d "type") as [t|] eqn:E; cbn.
  - destruct (Ht t eq_refl) as [H1 H2]. rewrite H1, H2; cbn.
    now rewrite <- app_assoc.
  - now rewrite <- app_assoc.
Qed.

Lemma send_command_empty n rest tr method params :
  send_command method params (mkWorld n ("" :: rest) false tr)
  = (Return JNull, mkWorld n rest (gone rest) (tr ++ [EvSend (wire method params); EvRecv ""])).
Proof.
  unfold _send_command, bind, ws_send, ws_recv; cbn.
  now rewrite <- app_assoc.
Qed.

Lemma send_command_invalid n r rest tr method params :
  Invalid json_loads r ->
  send_command method params (mkWorld n (r :: rest) false tr)
  = (Raise JSONDecodeError,
     mkWorld n rest (gone rest) (tr ++ [EvSend (wire method params); EvRecv r])).
Proof.
  intros [Hne Hl]. step_command Hne.
  rewrite Hl; cbn.
  now rewrite <- app_assoc.
Qed.

(** An absent answer: [None], and nothing but log records after the receive. *)
Lemma send_command_absent n r rest tr method params :
  Absent json_loads r ->
  exists log,
    send_command method params (mkWorld n (r :: rest) false tr)
    = (Return JNull,
       mkWorld n rest (gone rest) (tr ++ EvSend (wire method params) :: EvRecv r :: log))
    /\ quiet log.
Proof.
  intros [(kind & msg & H) | [-> | [H | H]]].
  - eexists [_]. split; [apply send_command_error; eassumption | repeat split].
  - exists []. split; [apply send_command_empty | repeat split].
  - exists []. split; [now apply send_command_undiscriminated | repeat split].
  - exists []. split; [now apply send_command_success | repeat split].
Qed.

(** ** The session *)

Lemma session_enter_created n r rest tr :
  SessionCreated json_loads r ->
  Session___enter__ json_dumps json_loads py_repr (mkWorld n (r :: rest) false tr)
  = (Return tt, mkWorld n rest (gone rest) (tr ++ [EvSend new_wire; EvRecv r])).
Proof.
  intros (d & sid & HS & Hsid & Ht).
  unfold Session___enter__, Session__new, bind at 1 2.
  rewrite (send_command_success _ _ _ _ _ _ _ HS).
  destruct d as [|kv d]; [discriminate|]. cbn -[dict_get].
  rewrite Hsid. cbn. now rewrite Ht.
Qed.

Lemma session_exit_ended n r rest tr e :
  SessionEnded json_loads r ->
  Session___exit__ json_dumps json_loads py_repr e (mkWorld n (r :: rest) false tr)
  = (Return false, mkWorld n rest (gone rest) (tr ++ [EvSend end_wire; EvRecv r])).
Proof.
  intros (R & HS & HR).
  unfold Session___exit__, Session__end, bind at 1 2.
  rewrite (send_command_success _ _ _ _ _ _ _ HS).
  destruct R; try reflexivity. now destruct HR.
Qed.

Lemma session_enter_not_created n r rest tr :
  NotCreated json_loads r ->
  exists log,
    Session___enter__ json_dumps json_loads py_repr (mkWorld n (r :: rest) false tr)
    = (Raise AssertionError,
       mkWorld n rest (gone rest) (tr ++ EvSend new_wire :: EvRecv r :: log))
    /\ quiet log.
Proof.
  unfold Session___enter__, Session__new.
  intros [Ha | [(R & HS & Hf) | (d & sid & HS & Hsid & Hf)]].
  - destruct (send_command_absent n r rest tr "session.new"
                (JObj [("capabilities", JObj [])]) Ha) as (log & E & Hq).
    exists log. split; [|exact Hq]. unfold bind at 1 2. now rewrite E.
  - exists []. split; [|repeat split]. unfold bind at 1 2.
    rewrite (send_command_success _ _ _ _ _ _ _ HS). now rewrite Hf.
  - exists []. split; [|repeat split]. unfold bind at 1 2.
    rewrite (send_command_success _ _ _ _ _ _ _ HS).
    destruct d as [|kv d]; [discriminate|]. cbn -[dict_get].
    rewrite Hsid. cbn. now rewrite Hf.
Qed.

Lemma session_exit_absent n r rest tr e :
  Absent json_loads r ->
  exists log,
    Session___exit__ json_dumps json_loads py_repr e (mkWorld n (r :: rest) false tr)
    = (Raise AssertionError,
       mkWorld n rest (gone rest) (tr ++ EvSend end_wire :: EvRecv r :: log))
    /\ quiet log.
Proof.
  intro Ha.
  destruct (send_command_absent n r rest tr "session.end" (JObj []) Ha)
    as (log & E & Hq).
  exists log. split; [|exact Hq].
  unfold Session___exit__, Session__end, bind at 1 2. now rewrite E.
Qed.

(** ** The connection *)

Lemma execute_refused port method params w :
  net w (endpoint port) = [] ->
  exec port method params w
  = (Raise ConnectionError,
     mkWorld (net w) (inbox w) (closed w) (trace w ++ [EvConnect (endpoint port)])).
Proof.
  intro H. unfold execute, with_, connect. now rewrite H.
Qed.

Lemma execute_accepted port method params w script later :
  net w (endpoint port) = script :: later ->
  exec port method params w
  = let '(o, w2) :=
      session_block method params
        (mkWorld (update (net w) (endpoint port) later) script (gone script)
                 (trace w ++ [EvConnect (endpoint port)])) in
    (o, mkWorld (net w2) [] true (trace w2 ++ [EvClose])).
Proof.
  intro H. unfold execute. unfold with_ at 1. unfold connect. rewrite H.
  destruct (with_ _ _ _ _ _) as [[a|e] w2]; reflexivity.
Qed.

(** A whole call, when the session is created and ended and the invoked
    command leaves the connection open: whatever the command does, value or
    exception, is what [execute] does. *)
Lemma execute_run port method params w r1 r2 r3 rest later o evs :
  net w (endpoint port) = (r1 :: r2 :: r3 :: rest) :: later ->
  SessionCreated json_loads r1 ->
  SessionEnded json_loads r3 ->
  (forall n tr,
      send_command method params (mkWorld n (r2 :: r3 :: rest) false tr)
      = (o, mkWorld n (r3 :: rest) false
              (tr ++ EvSend (wire method params) :: EvRecv r2 :: evs))) ->
  exec port method params w
  = (o, mkWorld (update (net w) (endpoint port) later) [] true
          (trace w ++ EvConnect (endpoint port) :: EvSend new_wire :: EvRecv r1
                   :: EvSend (wire method params) :: EvRecv r2
                   :: evs ++ [EvSend end_wire; EvRecv r3; EvClose])).
Proof.
  intros Hnet H1 H3 H2.
  rewrite (execute_accepted _ _ _ _ _ _ Hnet).
  unfold with_. cbn [gone]. rewrite (session_enter_created _ _ _ _ H1).
  unfold Session___call__. cbn [gone]. rewrite H2.
  destruct o as [a|e]; rewrite (session_exit_ended _ _ _ _ _ H3);
    cbn; repeat (rewrite <- app_assoc; cbn); reflexivity.
Qed.

(** ** Every path of one command *)

Lemma sent_app a b : sent (a ++ b) = sent a ++ sent b.
Proof. apply flat_map_app. Qed.

Lemma connected_app a b : connected (a ++ b) = connected a ++ connected b.
Proof. apply flat_map_app. Qed.

Lemma logged_app a b : logged (a ++ b) = logged a ++ logged b.
Proof. apply flat_map_app. Qed.

Lemma sent_nil : sent [] = [].
Proof. reflexivity. Qed.

Lemma sent_send t l : sent (EvSend t :: l) = t :: sent l.
Proof. reflexivity. Qed.

Lemma sent_recv r l : sent (EvRecv r :: l) = sent l.
Proof. reflexivity. Qed.

Lemma sent_connect u l : sent (EvConnect u :: l) = sent l.
Proof. reflexivity. Qed.

Lemma sent_log t l : sent (EvLog t :: l) = sent l.
Proof. reflexivity. Qed.

Lemma sent_close l : sent (EvClose :: l) = sent l.
Proof. reflexivity. Qed.

#[local] Hint Rewrite sent_app sent_nil sent_send sent_recv sent_connect sent_log
  sent_close app_nil_r : trace_db.

Lemma closes_app a b : closes (a ++ b) = (closes a + closes b)%nat.
Proof. unfold closes. now rewrite filter_app, length_app. Qed.

Lemma send_command_closed method params w :
  closed w = true ->
  send_command method params w = (Raise ConnectionClosed, w).
Proof.
  intro H. unfold _send_command, bind, ws_send. now rewrite H.
Qed.

Lemma send_command_open method params w :
  closed w = false ->
  exists o w' evs,
    send_command method params w = (o, w')
    /\ trace w' = trace w ++ EvSend (wire method params) :: evs
    /\ quiet evs
    /\ net w' = net w
    /\ closed w' = gone (inbox w').
Proof.
  intro H. destruct w as [n inb c tr]. cbn in H. subst c.
  unfold _send_command, bind, ws_send, ws_recv, loads, get, subscript,
    logging_error, emit, ret, raise; cbn.
  assert (forall evs (o : outcome json) n' inb' c' tr',
             tr' = tr ++ EvSend (wire method params) :: evs ->
             quiet evs -> n' = n -> c' = gone inb' ->
             exists o0 w' evs0,
               (o, mkWorld n' inb' c' tr') = (o0, w')
               /\ trace w' = tr ++ EvSend (wire method params) :: evs0
               /\ quiet evs0 /\ net w' = n
               /\ closed w' = gone (inbox w')) as Close.
  { intros evs o n' inb' c' tr' -> Hq -> ->.
    exists o, (mkWorld n inb' (gone inb') (tr ++ EvSend (wire method params) :: evs)), evs.
    repeat split; apply Hq. }
  assert (quiet []) as Q0 by (repeat split).
  assert (forall r, quiet [EvRecv r]) as Q1 by (repeat split).
  assert (forall r s, quiet [EvRecv r; EvLog s]) as Q2 by (repeat split).
  destruct inb as [|r rest]; cbn.
  { apply (Close []); auto. }
  destruct (r =? "")%string; cbn.
  { apply (Close [EvRecv r]); auto. now rewrite <- app_assoc. }
  destruct (json_loads r) as [v|]; cbn.
  2:{ apply (Close [EvRecv r]); auto. now rewrite <- app_assoc. }
  destruct v; cbn;
    try (apply (Close [EvRecv r]); auto; now rewrite <- app_assoc).
  destruct (dict_get d "type") as [t|]; cbn.
  2:{ apply (Close [EvRecv r]); auto. now rewrite <- app_assoc. }
  destruct (eq_str t "success"); cbn.
  { destruct (dict_get d "result"); cbn;
      apply (Close [EvRecv r]); auto; now rewrite <- app_assoc. }
  destruct (eq_str t "error"); cbn.
  2:{ apply (Close [EvRecv r]); auto. now rewrite <- app_assoc. }
  destruct (dict_get d "error") as [e|]; cbn.
  2:{ apply (Close [EvRecv r]); auto. now rewrite <- app_assoc. }
  destruct (dict_get d "message") as [m|]; cbn.
  2:{ apply (Close [EvRecv r]); auto. now rewrite <- app_assoc. }
  apply (Close [EvRecv r; EvLog (log_line e m)]); auto.
  now rewrite <- !app_assoc.
Qed.

(** Once a frame is there to be received, the connection stays open and
    only log records can follow the receive. *)
Lemma send_command_answered method params n r rest tr :
  exists o log,
    send_command method params (mkWorld n (r :: rest) false tr)
    = (o, mkWorld n rest (gone rest)
            (tr ++ EvSend (wire method params) :: EvRecv r :: log))
    /\ quiet log.
Proof.
  unfold _send_command, bind, ws_send, ws_recv, loads, get, subscript,
    logging_error, emit, ret, raise; cbn.
  assert (quiet []) as Q0 by (repeat split).
  assert (forall o : outcome json,
             exists o0 log,
               (o, mkWorld n rest (gone rest) ((tr ++ [EvSend (wire method params)]) ++ [EvRecv r]))
               = (o0, mkWorld n rest (gone rest)
                        (tr ++ EvSend (wire method params) :: EvRecv r :: log))
               /\ quiet log) as Plain.
  { intro o. exists o, []. split; [now rewrite <- app_assoc | exact Q0]. }
  destruct (r =? "")%string; cbn; [apply Plain|].
  destruct (json_loads r) as [v|]; cbn; [|apply Plain].
  destruct v; cbn; try apply Plain.
  destruct (dict_get d "type") as [t|]; cbn; [|apply Plain].
  destruct (eq_str t "success"); cbn.
  { destruct (dict_get d "result"); cbn; apply Plain. }
  destruct (eq_str t "error"); cbn; [|apply Plain].
  destruct (dict_get d "error") as [e|]; cbn; [|apply Plain].
  destruct (dict_get d "message") as [m|]; cbn; [|apply Plain].
  exists (Return JNull), [EvLog (log_line e m)].
  split; [now rewrite <- !app_assoc | repeat split].
Qed.

(** ** Every path of the session block *)

Lemma quiet_send t evs :
  quiet evs ->
  sent (EvSend t :: evs) = [t]
  /\ connected (EvSend t :: evs) = []
  /\ closes (EvSend t :: evs) = 0%nat.
Proof.
  intros (Hs & Hc & Hx).
  split; [change (t :: sent evs = [t]); now rewrite Hs|].
  split; [exact Hc | exact Hx].
Qed.

Lemma enter_shape w :
  closed w = false ->
  exists o w' evs,
    Session___enter__ json_dumps json_loads py_repr w = (o, w')
    /\ trace w' = trace w ++ EvSend new_wire :: evs
    /\ quiet evs
    /\ net w' = net w
    /\ closed w' = gone (inbox w').
Proof.
  intro H.
  destruct (send_command_open "session.new" (JObj [("capabilities", JObj [])]) w H)
    as (o & w' & evs & E & Htr & Hq & Hn & Hc).
  unfold Session___enter__, Session__new, bind. rewrite E.
  destruct o as [response|e].
  - destruct (truthy response); cbn.
    + destruct (subscript response "sessionId" w') as [[sid|e] w''] eqn:Es.
      * assert (w'' = w') as ->.
        { unfold subscript, ret, raise in Es.
          destruct response; try (injection Es; congruence).
          destruct (dict_get d "sessionId"); injection Es; congruence. }
        unfold assert_. destruct (truthy sid); cbn;
          do 2 eexists; exists evs; repeat split; eauto; apply Hq.
      * assert (w'' = w') as ->.
        { unfold subscript, ret, raise in Es.
          destruct response; try (injection Es; congruence).
          destruct (dict_get d "sessionId"); injection Es; congruence. }
        do 2 eexists; exists evs; repeat split; eauto; apply Hq.
    + do 2 eexists; exists evs; repeat split; eauto; apply Hq.
  - do 2 eexists; exists evs; repeat split; eauto; apply Hq.
Qed.

Lemma enter_closed w :
  closed w = true ->
  Session___enter__ json_dumps json_loads py_repr w = (Raise ConnectionClosed, w).
Proof.
  intro H. unfold Session___enter__, Session__new, bind.
  now rewrite (send_command_closed _ _ _ H).
Qed.

Lemma exit_closed e w :
  closed w = true ->
  Session___exit__ json_dumps json_loads py_repr e w = (Raise ConnectionClosed, w).
Proof.
  intro H. unfold Session___exit__, Session__end, bind.
  now rewrite (send_command_closed _ _ _ H).
Qed.

Lemma exit_open e w :
  closed w = false ->
  exists o w' evs,
    Session___exit__ json_dumps json_loads py_repr e w = (o, w')
    /\ trace w' = trace w ++ EvSend end_wire :: evs
    /\ quiet evs
    /\ net w' = net w
    /\ o <> Return true.
Proof.
  intro H.
  destruct (send_command_open "session.end" (JObj []) w H)
    as (o & w' & evs & E & Htr & Hq & Hn & _).
  unfold Session___exit__, Session__end, bind. rewrite E.
  destruct o as [r|x]; cbn.
  - destruct (is_not_None r); cbn;
      do 2 eexists; exists evs; repeat split; eauto; try apply Hq; discriminate.
  - do 2 eexists; exists evs; repeat split; eauto; try apply Hq; discriminate.
Qed.

Lemma eq_str_true t lit : eq_str t lit = true -> t = JStr lit.
Proof.
  destruct t; try discriminate. cbn. intro H.
  apply String.eqb_eq in H. now subst.
Qed.

(** [__enter__] returns only for an answer that creates the session. *)
Lemma enter_return_created n script tr w1 :
  Session___enter__ json_dumps json_loads py_repr (mkWorld n script false tr)
  = (Return tt, w1) ->
  exists r1 rest, script = r1 :: rest /\ SessionCreated json_loads r1.
Proof.
  destruct script as [|r rest].
  { unfold Session___enter__, Session__new, _send_command, bind, ws_send, ws_recv.
    cbn. discriminate. }
  intro H. exists r, rest. split; [reflexivity|].
  unfold Session___enter__, Session__new, _send_command, bind, ws_send, ws_recv,
    loads, get, subscript, logging_error, emit, assert_, ret, raise in H.
  cbn in H.
  destruct (r =? "")%string eqn:Er; cbn in H; [discriminate|].
  apply String.eqb_neq in Er.
  destruct (json_loads r) as [v|] eqn:El; cbn in H; [|discriminate].
  destruct v; cbn in H; try discriminate.
  destruct (dict_get d "type") as [t|] eqn:Et; cbn in H; [|discriminate].
  destruct (eq_str t "success") eqn:Es; cbn in H.
  - apply eq_str_true in Es. subst t.
    destruct (dict_get d "result") as [R|] eqn:ER; cbn in H; [|discriminate].
    destruct (truthy R) eqn:ET; cbn in H; [|discriminate].
    destruct R; cbn in H; try discriminate.
    destruct (dict_get d0 "sessionId") as [sid|] eqn:Esid; cbn in H; [|discriminate].
    destruct (truthy sid) eqn:Tsid; cbn in H; [|discriminate].
    exists d0, sid. split; [|split; assumption].
    split; [exact Er|]. exists d. repeat split; assumption.
  - destruct (eq_str t "error"); cbn in H; [|discriminate].
    destruct (dict_get d "error"); cbn in H; [|discriminate].
    destruct (dict_get d "message"); cbn in H; discriminate.
Qed.

Lemma session_block_shape method params w :
  exists o w' body,
    session_block method params w = (o, w')
    /\ trace w' = trace w ++ body
    /\ connected body = [] /\ closes body = 0%nat /\ net w' = net w
    /\ ((sent body = [] /\ closed w = true)
        \/ sent body = [new_wire]
        \/ (exists w1,
              Session___enter__ json_dumps json_loads py_repr w = (Return tt, w1))
           /\ (sent body = [new_wire; wire method params]
               \/ sent body = [new_wire; wire method params; end_wire]))
    /\ (closed w = false ->
        forall e w1,
          Session___enter__ json_dumps json_loads py_repr w = (Raise e, w1) ->
          sent body = [new_wire])
    /\ (forall w1,
          Session___enter__ json_dumps json_loads py_repr w = (Return tt, w1) ->
          (exists r2 r3 rest, inbox w1 = r2 :: r3 :: rest) ->
          sent body = [new_wire; wire method params; end_wire]).
Proof.
  unfold with_.
  destruct (closed w) eqn:Cw.
  { (* the peer left before anything could be sent *)
    rewrite (enter_closed w Cw).
    exists (Raise ConnectionClosed), w, [].
    rewrite app_nil_r. repeat split; auto; discriminate. }
  destruct (enter_shape w Cw) as (o1 & w1 & evs1 & E1 & T1 & Q1 & N1 & C1).
  destruct (quiet_send new_wire evs1 Q1) as (S1 & K1 & X1).
  rewrite E1.
  destruct o1 as [[]|e1].
  2:{ exists (Raise e1), w1, (EvSend new_wire :: evs1).
      repeat split; auto. discriminate. }
  unfold Session___call__.
  destruct (closed w1) eqn:Cw1.
  { (* the peer left after answering session.new *)
    rewrite (send_command_closed method params w1 Cw1).
    rewrite (exit_closed (Some ConnectionClosed) w1 Cw1).
    exists (Raise ConnectionClosed), w1, (EvSend new_wire :: evs1).
    repeat split; auto; try discriminate.
    intros w1' [= <-] (r2 & r3 & rest & Hin).
    rewrite Hin in C1. cbn in C1. congruence. }
  destruct (send_command_open method params w1 Cw1)
    as (o2 & w2 & evs2 & E2 & T2 & Q2 & N2 & C2).
  destruct (quiet_send (wire method params) evs2 Q2) as (S2 & K2 & X2).
  rewrite E2.
  destruct (closed w2) eqn:Cw2.
  - (* the peer left after answering the method *)
    assert (exists o, (match o2 with
                       | Return b =>
                           match Session___exit__ json_dumps json_loads py_repr None w2 with
                           | (Return _, w3) => (Return b, w3)
                           | (Raise e', w3) => (Raise e', w3)
                           end
                       | Raise e =>
                           match Session___exit__ json_dumps json_loads py_repr (Some e) w2 with
                           | (Return true, w3) => ret JNull w3
                           | (Return false, w3) => (Raise e, w3)
                           | (Raise e', w3) => (Raise e', w3)
                           end
                       end) = (o, w2)) as [o ->].
    { destruct o2; rewrite (exit_closed _ _ Cw2); eauto. }
    exists o, w2, ((EvSend new_wire :: evs1) ++ EvSend (wire method params) :: evs2).
    split; [reflexivity|].
    split; [now rewrite T2, T1, <- app_assoc|].
    split; [now rewrite connected_app, K1, K2|].
    split; [now rewrite closes_app, X1, X2|].
    split; [congruence|].
    split; [right; right; split; [eauto|left; now rewrite sent_app, S1, S2]|].
    split; [discriminate|].
    intros w1' Ew1 (r2 & r3 & rest & Hin). injection Ew1 as <-. exfalso.
    destruct w1 as [n1 inb1 c1 tr1]. cbn in Cw1, Hin. subst c1 inb1.
    destruct (send_command_answered method params n1 r2 (r3 :: rest) tr1)
      as (o' & lg & E' & _).
    rewrite E' in E2. injection E2 as _ <-. discriminate.
  - destruct o2 as [b|e2].
    + destruct (exit_open None w2 Cw2) as (o3 & w3 & evs3 & E3 & T3 & Q3 & N3 & _).
      destruct (quiet_send end_wire evs3 Q3) as (S3 & K3 & X3).
      rewrite E3.
      exists (match o3 with Return _ => Return b | Raise e' => Raise e' end), w3,
        ((EvSend new_wire :: evs1) ++ (EvSend (wire method params) :: evs2)
           ++ EvSend end_wire :: evs3).
      split; [destruct o3; reflexivity|].
      split; [now rewrite T3, T2, T1, <- !app_assoc|].
      split; [now rewrite !connected_app, K1, K2, K3|].
      split; [now rewrite !closes_app, X1, X2, X3|].
      split; [congruence|].
      assert (sent ((EvSend new_wire :: evs1) ++ (EvSend (wire method params) :: evs2)
                      ++ EvSend end_wire :: evs3)
              = [new_wire; wire method params; end_wire]) as Hsent
        by now rewrite !sent_app, S1, S2, S3.
      split; [right; right; split; [eauto|right; exact Hsent]|].
      split; [discriminate | intros; exact Hsent].
    + destruct (exit_open (Some e2) w2 Cw2) as (o3 & w3 & evs3 & E3 & T3 & Q3 & N3 & NT).
      destruct (quiet_send end_wire evs3 Q3) as (S3 & K3 & X3).
      rewrite E3.
      exists (match o3 with Return _ => Raise e2 | Raise e' => Raise e' end), w3,
        ((EvSend new_wire :: evs1) ++ (EvSend (wire method params) :: evs2)
           ++ EvSend end_wire :: evs3).
      split; [destruct o3 as [[|]|]; try reflexivity; now destruct NT|].
      split; [now rewrite T3, T2, T1, <- !app_assoc|].
      split; [now rewrite !connected_app, K1, K2, K3|].
      split; [now rewrite !closes_app, X1, X2, X3|].
      split; [congruence|].
      assert (sent ((EvSend new_wire :: evs1) ++ (EvSend (wire method params) :: evs2)
                      ++ EvSend end_wire :: evs3)
              = [new_wire; wire method params; end_wire]) as Hsent
        by now rewrite !sent_app, S1, S2, S3.
      split; [right; right; split; [eauto|right; exact Hsent]|].
      split; [discriminate | intros; exact Hsent].
Qed.

(** ** Inversions: what a returned value tells about the answer *)

Local Abbreviation enter := (Session___enter__ json_dumps json_loads py_repr).
Local Abbreviation exit := (Session___exit__ json_dumps json_loads py_repr).

Lemma subscript_world v k w :
  snd (subscript v k w) = w.
Proof.
  unfold subscript. destruct v; try reflexivity.
  destruct (dict_get d k); reflexivity.
Qed.

(** A command returns a value only for a frame that was there: a success
    envelope with that value, or an absent answer and [None]. *)
Lemma send_command_return_inv method params n inb tr v w' :
  send_command method params (mkWorld n inb false tr) = (Return v, w') ->
  exists r rest,
    inb = r :: rest
    /\ (Success json_loads r v \/ (v = JNull /\ Absent json_loads r)).
Proof.
  destruct inb as [|r rest].
  { unfold _send_command, bind, ws_send, ws_recv. cbn. discriminate. }
  intro H. exists r, rest. split; [reflexivity|].
  unfold _send_command, bind, ws_send, ws_recv, loads, get, subscript,
    logging_error, emit, ret, raise in H.
  cbn in H.
  destruct (r =? "")%string eqn:Er; cbn in H.
  { apply String.eqb_eq in Er. injection H as <- _. right. split; [reflexivity|].
    right. now left. }
  apply String.eqb_neq in Er.
  destruct (json_loads r) as [x|] eqn:El; cbn in H; [|discriminate].
  destruct x; cbn in H; try discriminate.
  destruct (dict_get d "type") as [t|] eqn:Et; cbn in H.
  2:{ injection H as <- _. right. split; [reflexivity|].
      right. right. left. split; [exact Er|]. exists d. split; [exact El|].
      intros t Ht. congruence. }
  destruct (eq_str t "success") eqn:Es; cbn in H.
  - apply eq_str_true in Es. subst t.
    destruct (dict_get d "result") as [R|] eqn:ER; cbn in H; [|discriminate].
    injection H as <- _. left.
    split; [exact Er|]. exists d. repeat split; assumption.
  - destruct (eq_str t "error") eqn:Ee; cbn in H.
    + apply eq_str_true in Ee. subst t.
      destruct (dict_get d "error") as [k|] eqn:Ek; cbn in H; [|discriminate].
      destruct (dict_get d "message") as [m|] eqn:Em; cbn in H; [|discriminate].
      injection H as <- _. right. split; [reflexivity|].
      left. exists k, m. split; [exact Er|]. exists d. repeat split; assumption.
    + injection H as <- _. right. split; [reflexivity|].
      right. right. left. split; [exact Er|]. exists d. split; [exact El|].
      intros t' Ht'. rewrite Et in Ht'. injection Ht' as <-. now split.
Qed.

(** [__exit__] never asks for the exception to be swallowed. *)
Lemma exit_never_true e w : fst (exit e w) <> Return true.
Proof.
  unfold Session___exit__, Session__end, bind, assert_, ret, raise.
  destruct (_send_command _ _ _ _ _ w) as [[r|x] w']; cbn; [|discriminate].
  destruct (is_not_None r); cbn; discriminate.
Qed.

(** [__exit__] returns only for an answer that ends the session. *)
Lemma exit_return_inv e n inb tr b w' :
  exit e (mkWorld n inb false tr) = (Return b, w') ->
  exists r rest, inb = r :: rest /\ SessionEnded json_loads r.
Proof.
  unfold Session___exit__, Session__end, bind at 1 2.
  destruct (send_command "session.end" (JObj []) (mkWorld n inb false tr))
    as [[v|x] w1] eqn:E; [|discriminate].
  destruct (send_command_return_inv _ _ _ _ _ _ _ E) as (r & rest & -> & Hr).
  unfold ret at 1. destruct (is_not_None v) eqn:Hv; cbn; [|discriminate].
  intros _. exists r, rest. split; [reflexivity|].
  destruct Hr as [HS | [-> _]]; [|discriminate].
  exists v. split; [exact HS|]. intros ->. discriminate.
Qed.

Lemma enter_world w :
  snd (enter w)
  = snd (send_command "session.new" (JObj [("capabilities", JObj [])]) w).
Proof.
  unfold Session___enter__, Session__new, bind.
  destruct (send_command _ _ w) as [[response|e] w1]; [|reflexivity].
  destruct (truthy response); cbn.
  - pose proof (subscript_world response "sessionId" w1) as Hs.
    destruct (subscript response "sessionId" w1) as [[sid|e] w2]; cbn in *; subst;
      [|reflexivity].
    unfold assert_. now destruct (truthy sid).
  - reflexivity.
Qed.

Lemma exit_world e w :
  snd (exit e w) = snd (send_command "session.end" (JObj []) w).
Proof.
  unfold Session___exit__, Session__end, bind.
  destruct (send_command _ _ w) as [[r|x] w1]; [|reflexivity].
  cbn. now destruct (is_not_None r).
Qed.

(** What a command returns or raises depends on the frames to come, not on
    the rest of the world. *)
Lemma send_command_outcome_uniform method params n n' inb c tr tr' :
  fst (send_command method params (mkWorld n inb c tr))
  = fst (send_command method params (mkWorld n' inb c tr')).
Proof.
  unfold _send_command, bind, ws_send, ws_recv, loads, get, subscript,
    logging_error, emit, ret, raise; cbn.
  destruct c; cbn; [reflexivity|].
  destruct inb as [|r rest]; cbn; [reflexivity|].
  destruct (r =? "")%string; cbn; [reflexivity|].
  destruct (json_loads r) as [v|]; cbn; [|reflexivity].
  destruct v; cbn; try reflexivity.
  destruct (dict_get d "type") as [t|]; cbn; [|reflexivity].
  destruct (eq_str t "success"); cbn.
  { destruct (dict_get d "result"); reflexivity. }
  destruct (eq_str t "error"); cbn; [|reflexivity].
  destruct (dict_get d "error"); cbn; [|reflexivity].
  destruct (dict_get d "message"); reflexivity.
Qed.

Lemma exit_outcome_uniform e e' n n' inb tr tr' :
  fst (exit e (mkWorld n inb false tr)) = fst (exit e' (mkWorld n' inb false tr')).
Proof.
  unfold Session___exit__, Session__end, bind.
  pose proof (send_command_outcome_uniform "session.end" (JObj []) n n' inb false tr tr')
    as U.
  destruct (send_command _ _ (mkWorld n inb false tr)) as [[r|x] w1];
    destruct (send_command _ _ (mkWorld n' inb false tr')) as [[r'|x'] w1'];
    cbn in U; try discriminate; injection U as <-; [|reflexivity].
  cbn. now destruct (is_not_None r).
Qed.

(** ** C1, C6, C7 *)

(** C6. The command built for any method and any parameters mapping is
    [{"id": 1, "method": method, "params": parameters}]: the identifier is
    the constant 1, method and parameters are carried as given, and omitted
    parameters ([None]) become the empty mapping.  On an open connection the
    text that is sent is the encoding of exactly that envelope. *)
Theorem C6_command_envelope (method : string) (d : list (string * json))
    (n : string -> list (list string)) (inb : list string) (tr : list event) :
  _make_command method (JObj d)
  = JObj [("id", JNum 1); ("method", JStr method); ("params", JObj d)]
  /\ _make_command method JNull
     = JObj [("id", JNum 1); ("method", JStr method); ("params", JObj [])]
  /\ sent (trace (snd (send_command method (JObj d) (mkWorld n inb false tr))))
     = sent tr ++ [json_dumps (JObj [("id", JNum 1); ("method", JStr method);
                                     ("params", JObj d)])].
Proof.
  assert (E : _make_command method (JObj d)
              = JObj [("id", JNum 1); ("method", JStr method); ("params", JObj d)]).
  { unfold _make_command. destruct d; reflexivity. }
  split; [exact E|]. split; [reflexivity|].
  destruct (send_command_open method (JObj d) (mkWorld n inb false tr) eq_refl)
    as (o & w' & evs & -> & Htr & (Hs & _) & _).
  cbn [snd]. rewrite Htr. cbn [trace].
  change (EvSend ?t :: evs) with ([EvSend t] ++ evs).
  rewrite !sent_app, Hs, app_nil_r, E. reflexivity.
Qed.

(** C1. When the session is created, the method is answered with the success
    envelope [{"type": "success", "result": R}] and the session is ended,
    [execute] returns [R] itself. *)
Theorem C1_execute_returns_result (port : Z) (method : string) (params : json)
    (w : World) (r1 r2 r3 : string) (rest : list string)
    (later : list (list string)) (R : json) :
  net w (endpoint port) = (r1 :: r2 :: r3 :: rest) :: later ->
  SessionCreated json_loads r1 ->
  Success json_loads r2 R ->
  SessionEnded json_loads r3 ->
  fst (exec port method params w) = Return R.
Proof.
  intros Hnet H1 H2 H3.
  rewrite (execute_run port method params w r1 r2 r3 rest later (Return R) []
             Hnet H1 H3).
  - reflexivity.
  - intros n tr. now apply send_command_success.
Qed.

(** C7. Sending a command whose parameters are
    [{"context": "abc", "url": "https://x"}] and decoding the reply
    [{"type": "success", "result": {"url": "https://x"}}] yields
    [{"url": "https://x"}]. *)
Theorem C7_round_trip (method reply : string) (n : string -> list (list string))
    (rest : list string) (tr : list event) :
  reply <> "" ->
  json_loads reply
  = Some (JObj [("type", JStr "success");
                ("result", JObj [("url", JStr "https://x")])]) ->
  send_command method (JObj [("context", JStr "abc"); ("url", JStr "https://x")])
    (mkWorld n (reply :: rest) false tr)
  = (Return (JObj [("url", JStr "https://x")]),
     mkWorld n rest (gone rest)
       (tr ++ [EvSend (json_dumps
                         (JObj [("id", JNum 1); ("method", JStr method);
                                ("params", JObj [("context", JStr "abc");
                                                 ("url", JStr "https://x")])]));
               EvRecv reply])).
Proof.
  intros Hne Hl.
  apply send_command_success. split; [exact Hne|].
  eexists. split; [exact Hl|]. split; reflexivity.
Qed.

(** ** C2: failures of the method *)

Lemma send_command_not_object n r rest tr method params v :
  r <> "" ->
  json_loads r = Some v ->
  (forall d, v <> JObj d) ->
  send_command method params (mkWorld n (r :: rest) false tr)
  = (Raise AttributeError,
     mkWorld n rest (gone rest) (tr ++ [EvSend (wire method params); EvRecv r])).
Proof.
  intros Hne Hl Hv. step_command Hne. rewrite Hl; cbn.
  destruct v; cbn; try now rewrite <- app_assoc.
  now destruct (Hv d).
Qed.

Lemma send_command_incomplete n r rest tr method params key :
  Incomplete json_loads r key ->
  send_command method params (mkWorld n (r :: rest) false tr)
  = (Raise (KeyError key),
     mkWorld n rest (gone rest) (tr ++ [EvSend (wire method params); EvRecv r])).
Proof.
  intros [Hne (d & Hl & Hcase)]. step_command Hne. rewrite Hl; cbn.
  destruct Hcase as [(Ht & Hr & ->) | [(Ht & He & ->) | (Ht & (k & He) & Hm & ->)]];
    rewrite Ht; cbn.
  - rewrite Hr; cbn. now rewrite <- app_assoc.
  - rewrite He; cbn. now rewrite <- app_assoc.
  - rewrite He; cbn. rewrite Hm; cbn. now rewrite <- app_assoc.
Qed.

(** C2 (amended). With the session created and ended: an error envelope in
    answer to the method makes [execute] return [None] and log one record
    with the error kind and message; an empty frame, or an object whose
    ["type"] is neither ["success"] nor ["error"], makes it return [None]
    and log nothing; non-empty text that is not JSON makes it raise the
    decoder's exception, JSON that is not an object makes it raise
    [AttributeError], and an envelope without the entry its type promises
    makes it raise [KeyError], with nothing logged. *)
Theorem C2_method_level_failures (port : Z) (method : string) (params : json)
    (w : World) (r1 r2 r3 : string) (rest : list string)
    (later : list (list string)) :
  net w (endpoint port) = (r1 :: r2 :: r3 :: rest) :: later ->
  SessionCreated json_loads r1 ->
  SessionEnded json_loads r3 ->
  (forall kind msg,
      Error json_loads r2 kind msg ->
      fst (exec port method params w) = Return JNull
      /\ logged (trace (snd (exec port method params w)))
         = logged (trace w) ++ [log_line kind msg])
  /\ (Undiscriminated json_loads r2 ->
      fst (exec port method params w) = Return JNull
      /\ logged (trace (snd (exec port method params w))) = logged (trace w))
  /\ (Invalid json_loads r2 ->
      fst (exec port method params w) = Raise JSONDecodeError
      /\ logged (trace (snd (exec port method params w))) = logged (trace w))
  /\ (r2 = "" ->
      fst (exec port method params w) = Return JNull
      /\ logged (trace (snd (exec port method params w))) = logged (trace w))
  /\ (forall v,
        r2 <> "" -> json_loads r2 = Some v -> (forall d, v <> JObj d) ->
        fst (exec port method params w) = Raise AttributeError
        /\ logged (trace (snd (exec port method params w))) = logged (trace w))
  /\ (forall key,
        Incomplete json_loads r2 key ->
        fst (exec port method params w) = Raise (KeyError key)
        /\ logged (trace (snd (exec port method params w))) = logged (trace w)).
Proof.
  intros Hnet H1 H3.
  assert (forall o,
             (forall n tr,
                 send_command method params (mkWorld n (r2 :: r3 :: rest) false tr)
                 = (o, mkWorld n (r3 :: rest) false
                         (tr ++ EvSend (wire method params) :: EvRecv r2 :: []))) ->
             fst (exec port method params w) = o
             /\ logged (trace (snd (exec port method params w))) = logged (trace w))
    as Silent.
  { intros o H2.
    rewrite (execute_run port method params w r1 r2 r3 rest later o [] Hnet H1 H3 H2).
    split; [reflexivity|]. cbn [snd trace]. rewrite logged_app. apply app_nil_r. }
  split; [|split; [|split; [|split; [|split]]]].
  - intros kind msg H2.
    rewrite (execute_run port method params w r1 r2 r3 rest later (Return JNull)
               [EvLog (log_line kind msg)] Hnet H1 H3).
    + split; [reflexivity|]. cbn [snd trace]. now rewrite logged_app.
    + intros n tr. now apply send_command_error.
  - intro H2. apply Silent. intros n tr. now apply send_command_undiscriminated.
  - intro H2. apply Silent. intros n tr. now apply send_command_invalid.
  - intros ->. apply Silent. intros n tr. apply send_command_empty.
  - intros v Hne Hl Hv. apply Silent. intros n tr.
    exact (send_command_not_object n r2 (r3 :: rest) tr method params v Hne Hl Hv).
  - intros key H2. apply Silent. intros n tr.
    exact (send_command_incomplete n r2 (r3 :: rest) tr method params key H2).
Qed.

(** ** C3: failures of the session *)

Lemma success_unique r R R' :
  Success json_loads r R -> Success json_loads r R' -> R = R'.
Proof.
  intros (_ & d & Hl & _ & Hr) (_ & d' & Hl' & _ & Hr'). congruence.
Qed.

Lemma success_not_error r R kind msg :
  Success json_loads r R -> Error json_loads r kind msg -> False.
Proof.
  intros (_ & d & Hl & Ht & _) (_ & d' & Hl' & Ht' & _). congruence.
Qed.

Lemma success_not_undiscriminated r R :
  Success json_loads r R -> Undiscriminated json_loads r -> False.
Proof.
  intros (_ & d & Hl & Ht & _) (_ & d' & Hl' & Hu).
  assert (d' = d) as -> by congruence.
  destruct (Hu _ Ht) as [H _]. discriminate H.
Qed.

(** The answers on which the assertion of [__enter__] fails create no
    session. *)
Lemma not_created_excludes_created r :
  NotCreated json_loads r -> ~ SessionCreated json_loads r.
Proof.
  intros Hbad (d & sid & HS & Hsid & Ht).
  destruct Hbad as [[(k & m & He) | [-> | [Hu | Hn]]]
                   | [(R & HS' & Hf) | (d' & sid' & HS' & Hsid' & Hf)]].
  - exact (success_not_error _ _ _ _ HS He).
  - now destruct HS.
  - exact (success_not_undiscriminated _ _ HS Hu).
  - pose proof (success_unique _ _ _ HS Hn). discriminate.
  - pose proof (success_unique _ _ _ HS HS') as <-.
    destruct d; [discriminate Hsid | discriminate Hf].
  - pose proof (success_unique _ _ _ HS HS') as [= <-]. congruence.
Qed.

Lemma eq_str_false_cases t :
  eq_str t "success" = false -> eq_str t "error" = false ->
  forall t', Some t = Some t' ->
             eq_str t' "success" = false /\ eq_str t' "error" = false.
Proof. intros H1 H2 t' [= <-]. now split. Qed.

(** Every answer is of one of the kinds the amended C2 and C3 name: it
    creates the session, or fails the assertion, or is not JSON, or is not
    an object, or lacks a promised entry, or is a success whose non-empty
    result has no session identifier or is not a mapping. *)
Lemma answer_cases r :
  SessionCreated json_loads r
  \/ NotCreated json_loads r
  \/ Invalid json_loads r
  \/ (exists v, r <> "" /\ json_loads r = Some v /\ forall d, v <> JObj d)
  \/ (exists key, Incomplete json_loads r key)
  \/ (exists d, Success json_loads r (JObj d) /\ d <> []
                /\ dict_get d "sessionId" = None)
  \/ (exists R, Success json_loads r R /\ truthy R = true /\ forall d, R <> JObj d).
Proof.
  destruct (string_dec r "") as [->|Hne].
  { right. left. left. right. now left. }
  destruct (json_loads r) as [v|] eqn:Hl.
  2:{ right. right. left. now split. }
  destruct v as [| b | z | x | l | d];
    try (right; right; right; left; eexists; repeat split; eauto; discriminate).
  destruct (dict_get d "type") as [t|] eqn:Ht.
  2:{ right. left. left. right. right. left. split; [exact Hne|].
      exists d. split; [exact Hl|]. intros t Ht'. congruence. }
  destruct (eq_str t "success") eqn:Es.
  - apply eq_str_true in Es. subst t.
    destruct (dict_get d "result") as [R|] eqn:Hr.
    2:{ right. right. right. right. left. exists "result".
        split; [exact Hne|]. exists d. split; [exact Hl|]. left. auto. }
    assert (Success json_loads r R) as HS.
    { split; [exact Hne|]. exists d. auto. }
    destruct (truthy R) eqn:TR.
    2:{ right. left. right. left. now exists R. }
    destruct R as [| b | z | x | l | dR];
      try (right; right; right; right; right; right; eexists;
           split; [exact HS|]; split; [exact TR|]; discriminate).
    destruct (dict_get dR "sessionId") as [sid|] eqn:Hsid.
    2:{ right. right. right. right. right. left. exists dR.
        split; [exact HS|]. split; [|exact Hsid]. intros ->. discriminate. }
    destruct (truthy sid) eqn:Tsid.
    + left. now exists dR, sid.
    + right. left. right. right. now exists dR, sid.
  - destruct (eq_str t "error") eqn:Ee.
    + apply eq_str_true in Ee. subst t.
      destruct (dict_get d "error") as [k|] eqn:Hk.
      2:{ right. right. right. right. left. exists "error".
          split; [exact Hne|]. exists d. split; [exact Hl|]. right. left. auto. }
      destruct (dict_get d "message") as [m|] eqn:Hm.
      2:{ right. right. right. right. left. exists "message".
          split; [exact Hne|]. exists d. split; [exact Hl|]. right. right.
          repeat split; eauto. }
      right. left. left. left. exists k, m. split; [exact Hne|].
      exists d. auto.
    + right. left. left. right. right. left. split; [exact Hne|].
      exists d. split; [exact Hl|]. rewrite Ht.
      now apply eq_str_false_cases.
Qed.

(** Whatever answers [session.new], [__enter__] leaves the frames after it
    and a trace with the send, the receive and at most log records. *)
Lemma enter_answered n r rest tr :
  exists o log,
    enter (mkWorld n (r :: rest) false tr)
    = (o, mkWorld n rest (gone rest) (tr ++ EvSend new_wire :: EvRecv r :: log))
    /\ quiet log.
Proof.
  destruct (send_command_answered "session.new" (JObj [("capabilities", JObj [])])
              n r rest tr) as (o & log & E & Hq).
  pose proof (enter_world (mkWorld n (r :: rest) false tr)) as Hw.
  rewrite E in Hw. cbn [snd] in Hw.
  destruct (enter _) as [o1 w1]. cbn [snd] in Hw. subst w1.
  exists o1, log. split; [reflexivity | exact Hq].
Qed.

Lemma exit_answered e n r rest tr :
  exists o log,
    exit e (mkWorld n (r :: rest) false tr)
    = (o, mkWorld n rest (gone rest) (tr ++ EvSend end_wire :: EvRecv r :: log))
    /\ quiet log.
Proof.
  destruct (send_command_answered "session.end" (JObj []) n r rest tr)
    as (o & log & E & Hq).
  pose proof (exit_world e (mkWorld n (r :: rest) false tr)) as Hw.
  rewrite E in Hw. cbn [snd] in Hw.
  destruct (exit e _) as [o1 w1]. cbn [snd] in Hw. subst w1.
  exists o1, log. split; [reflexivity | exact Hq].
Qed.

(** A call whose [__enter__] raises: the exception is the call's, and only
    [session.new] was sent. *)
Lemma execute_enter_raises port method params w r1 rest later x :
  net w (endpoint port) = (r1 :: rest) :: later ->
  fst (enter (mkWorld (update (net w) (endpoint port) later) (r1 :: rest) false
                (trace w ++ [EvConnect (endpoint port)]))) = Raise x ->
  fst (exec port method params w) = Raise x
  /\ sent (trace (snd (exec port method params w))) = sent (trace w) ++ [new_wire]
  /\ closed (snd (exec port method params w)) = true.
Proof.
  intros Hnet Hx. rewrite (execute_accepted _ _ _ _ _ _ Hnet).
  unfold with_. cbn [gone].
  destruct (enter_answered (update (net w) (endpoint port) later) r1 rest
              (trace w ++ [EvConnect (endpoint port)])) as (o & log & E & Hq).
  rewrite E in Hx |- *. cbn [fst] in Hx. subst o.
  cbn [fst snd trace closed]. split; [reflexivity|]. split; [|reflexivity].
  destruct Hq as (Hs & _).
  autorewrite with trace_db. rewrite Hs. now autorewrite with trace_db.
Qed.

(** A call whose session is created and whose [__exit__] raises: that
    exception is the call's, whatever the method's answer was, and nothing
    is sent after [session.end]. *)
Lemma execute_exit_raises port method params w r1 r2 r3 rest later x :
  net w (endpoint port) = (r1 :: r2 :: r3 :: rest) :: later ->
  SessionCreated json_loads r1 ->
  (forall e n tr, fst (exit e (mkWorld n (r3 :: rest) false tr)) = Raise x) ->
  fst (exec port method params w) = Raise x
  /\ sent (trace (snd (exec port method params w)))
     = sent (trace w) ++ [new_wire; wire method params; end_wire]
  /\ closed (snd (exec port method params w)) = true.
Proof.
  intros Hnet H1 Hx. rewrite (execute_accepted _ _ _ _ _ _ Hnet).
  unfold with_. cbn [gone]. rewrite (session_enter_created _ _ _ _ H1).
  unfold Session___call__. cbn [gone].
  destruct (send_command_answered method params
              (update (net w) (endpoint port) later) r2 (r3 :: rest)
              ((trace w ++ [EvConnect (endpoint port)]) ++ [EvSend new_wire; EvRecv r1]))
    as (o & log2 & -> & (S2 & _)).
  cbn [gone].
  assert (forall e,
             exists log3,
               exit e (mkWorld (update (net w) (endpoint port) later) (r3 :: rest) false
                         (((trace w ++ [EvConnect (endpoint port)])
                             ++ [EvSend new_wire; EvRecv r1])
                            ++ EvSend (wire method params) :: EvRecv r2 :: log2))
               = (Raise x,
                  mkWorld (update (net w) (endpoint port) later) rest (gone rest)
                    ((((trace w ++ [EvConnect (endpoint port)])
                         ++ [EvSend new_wire; EvRecv r1])
                        ++ EvSend (wire method params) :: EvRecv r2 :: log2)
                       ++ EvSend end_wire :: EvRecv r3 :: log3))
               /\ sent log3 = []) as Hexit.
  { intro e.
    destruct (exit_answered e (update (net w) (endpoint port) later) r3 rest
                (((trace w ++ [EvConnect (endpoint port)])
                    ++ [EvSend new_wire; EvRecv r1])
                   ++ EvSend (wire method params) :: EvRecv r2 :: log2))
      as (o3 & log3 & E3 & (S3 & _)).
    specialize (Hx e (update (net w) (endpoint port) later)
                  (((trace w ++ [EvConnect (endpoint port)])
                      ++ [EvSend new_wire; EvRecv r1])
                     ++ EvSend (wire method params) :: EvRecv r2 :: log2)).
    rewrite E3 in Hx. cbn [fst] in Hx. subst o3.
    exists log3. split; [exact E3 | exact S3]. }
  destruct o as [b|e].
  - destruct (Hexit None) as (log3 & -> & S3).
    cbn [fst snd trace closed]. split; [reflexivity|]. split; [|reflexivity].
    autorewrite with trace_db. rewrite S2, S3. autorewrite with trace_db.
    now rewrite <- !app_assoc.
  - destruct (Hexit (Some e)) as (log3 & -> & S3).
    cbn [fst snd trace closed]. split; [reflexivity|]. split; [|reflexivity].
    autorewrite with trace_db. rewrite S2, S3. autorewrite with trace_db.
    now rewrite <- !app_assoc.
Qed.

(** C3 (amended). Any answer to [session.new] that does not create the
    session makes [execute] raise, with [session.new] the only command sent
    and the connection closed; any answer to [session.end] that does not end
    it makes [execute] raise whatever the method's answer was, with nothing
    sent after [session.end].  The exception is [AssertionError] when the
    answer is an error envelope or gives the command nothing to return (or,
    for [session.new], an empty result or session identifier); it is the
    exception of the step that failed otherwise: [KeyError] for a result
    without ["sessionId"] or an envelope without the entry its type
    promises, [TypeError] for a result that is not a mapping, the decoder's
    exception for text that is not JSON, [AttributeError] for JSON that is
    not an object. *)
Theorem C3_lifecycle_failure_is_fatal (port : Z) (method : string) (params : json)
    (w : World) (r1 : string) (rest : list string) (later : list (list string)) :
  net w (endpoint port) = (r1 :: rest) :: later ->
  (~ SessionCreated json_loads r1 ->
     (exists x, fst (exec port method params w) = Raise x)
     /\ sent (trace (snd (exec port method params w)))
        = sent (trace w) ++ [new_wire]
     /\ closed (snd (exec port method params w)) = true)
  /\ (NotCreated json_loads r1 ->
      fst (exec port method params w) = Raise AssertionError)
  /\ (forall d,
        Success json_loads r1 (JObj d) -> d <> [] ->
        dict_get d "sessionId" = None ->
        fst (exec port method params w) = Raise (KeyError "sessionId"))
  /\ (forall R,
        Success json_loads r1 R -> truthy R = true -> (forall d, R <> JObj d) ->
        fst (exec port method params w) = Raise TypeError)
  /\ (Invalid json_loads r1 ->
      fst (exec port method params w) = Raise JSONDecodeError)
  /\ (forall v,
        r1 <> "" -> json_loads r1 = Some v -> (forall d, v <> JObj d) ->
        fst (exec port method params w) = Raise AttributeError)
  /\ (forall key,
        Incomplete json_loads r1 key ->
        fst (exec port method params w) = Raise (KeyError key))
  /\ (forall r2 r3 rest',
        rest = r2 :: r3 :: rest' ->
        SessionCreated json_loads r1 ->
        (~ SessionEnded json_loads r3 ->
           (exists x, fst (exec port method params w) = Raise x)
           /\ sent (trace (snd (exec port method params w)))
              = sent (trace w) ++ [new_wire; wire method params; end_wire]
           /\ closed (snd (exec port method params w)) = true)
        /\ (Absent json_loads r3 ->
            fst (exec port method params w) = Raise AssertionError)
        /\ (Invalid json_loads r3 ->
            fst (exec port method params w) = Raise JSONDecodeError)
        /\ (forall v,
              r3 <> "" -> json_loads r3 = Some v -> (forall d, v <> JObj d) ->
              fst (exec port method params w) = Raise AttributeError)
        /\ (forall key,
              Incomplete json_loads r3 key ->
              fst (exec port method params w) = Raise (KeyError key))).
Proof.
  intro Hnet.
  set (n0 := update (net w) (endpoint port) later).
  set (tr0 := trace w ++ [EvConnect (endpoint port)]).
  assert (forall x, fst (enter (mkWorld n0 (r1 :: rest) false tr0)) = Raise x ->
                    fst (exec port method params w) = Raise x) as Hen.
  { intros x Hx. exact (proj1 (execute_enter_raises _ _ _ _ _ _ _ x Hnet Hx)). }
  split; [|split; [|split; [|split; [|split; [|split; [|split]]]]]].
  - intro Hno.
    destruct (enter (mkWorld n0 (r1 :: rest) false tr0)) as [[[]|x] w1] eqn:E.
    + destruct (enter_return_created _ _ _ _ E) as (r & rs & [= <- <-] & Hc).
      now destruct Hno.
    + destruct (execute_enter_raises port method params w r1 rest later x Hnet)
        as (Hf & Hs & Hc).
      { fold n0 tr0. now rewrite E. }
      split; [now exists x | split; assumption].
  - intro Hbad. apply Hen.
    destruct (session_enter_not_created n0 r1 rest tr0 Hbad) as (log & -> & _).
    reflexivity.
  - intros d HS Hd Hsid. apply Hen.
    unfold Session___enter__, Session__new, bind at 1 2.
    rewrite (send_command_success _ _ _ _ _ _ _ HS).
    assert (truthy (JObj d) = true) as -> by (destruct d; [now destruct Hd|reflexivity]).
    unfold subscript. now rewrite Hsid.
  - intros R HS HT HR. apply Hen.
    unfold Session___enter__, Session__new, bind at 1 2.
    rewrite (send_command_success _ _ _ _ _ _ _ HS), HT.
    unfold subscript. destruct R; try reflexivity. now destruct (HR d).
  - intro Hinv. apply Hen.
    unfold Session___enter__, Session__new, bind at 1 2.
    now rewrite (send_command_invalid _ _ _ _ _ _ Hinv).
  - intros v Hne Hl Hv. apply Hen.
    unfold Session___enter__, Session__new, bind at 1 2.
    now rewrite (send_command_not_object _ _ _ _ _ _ _ Hne Hl Hv).
  - intros key Hinc. apply Hen.
    unfold Session___enter__, Session__new, bind at 1 2.
    now rewrite (send_command_incomplete _ _ _ _ _ _ _ Hinc).
  - intros r2 r3 rest' -> H1.
    assert (forall x,
               (forall e n tr, fst (exit e (mkWorld n (r3 :: rest') false tr)) = Raise x) ->
               fst (exec port method params w) = Raise x) as Hex.
    { intros x Hx.
      exact (proj1 (execute_exit_raises _ _ _ _ _ _ _ _ _ x Hnet H1 Hx)). }
    split; [|split; [|split; [|split]]].
    + intro Hno.
      assert (exists x, forall e n tr,
                 fst (exit e (mkWorld n (r3 :: rest') false tr)) = Raise x)
        as (x & Hx).
      { destruct (exit None (mkWorld n0 (r3 :: rest') false tr0)) as [[b|x] w3] eqn:E.
        - destruct (exit_return_inv _ _ _ _ _ _ E) as (r & rs & [= <- <-] & He).
          now destruct Hno.
        - exists x. intros e n tr.
          pose proof (exit_outcome_uniform e None n n0 (r3 :: rest') tr tr0) as U.
          rewrite U, E. reflexivity. }
      destruct (execute_exit_raises port method params w r1 r2 r3 rest' later x
                  Hnet H1 Hx) as (Hf & Hs & Hc).
      split; [now exists x | split; assumption].
    + intro Ha. apply Hex. intros e n tr.
      destruct (session_exit_absent n r3 rest' tr e Ha) as (log & -> & _).
      reflexivity.
    + intro Hinv. apply Hex. intros e n tr.
      unfold Session___exit__, Session__end, bind at 1 2.
      now rewrite (send_command_invalid _ _ _ _ _ _ Hinv).
    + intros v Hne Hl Hv. apply Hex. intros e n tr.
      unfold Session___exit__, Session__end, bind at 1 2.
      now rewrite (send_command_not_object _ _ _ _ _ _ _ Hne Hl Hv).
    + intros key Hinc. apply Hex. intros e n tr.
      unfold Session___exit__, Session__end, bind at 1 2.
      now rewrite (send_command_incomplete _ _ _ _ _ _ _ Hinc).
Qed.

(** ** C4, C5: the shape of every call *)

Lemma execute_shape port method params w script later :
  net w (endpoint port) = script :: later ->
  let w0 := mkWorld (update (net w) (endpoint port) later) script (gone script)
                    (trace w ++ [EvConnect (endpoint port)]) in
  exists body,
    trace (snd (exec port method params w))
    = trace w ++ EvConnect (endpoint port) :: body ++ [EvClose]
    /\ connected body = [] /\ closes body = 0%nat
    /\ ((sent body = [] /\ script = [])
        \/ sent body = [new_wire]
        \/ (exists r1 rest, script = r1 :: rest /\ SessionCreated json_loads r1)
           /\ (sent body = [new_wire; wire method params]
               \/ sent body = [new_wire; wire method params; end_wire]))
    /\ (gone script = false ->
        forall e w1, enter w0 = (Raise e, w1) -> sent body = [new_wire])
    /\ (forall w1,
          enter w0 = (Return tt, w1) ->
          (exists r2 r3 rest, inbox w1 = r2 :: r3 :: rest) ->
          sent body = [new_wire; wire method params; end_wire]).
Proof.
  intros Hnet w0. rewrite (execute_accepted _ _ _ _ _ _ Hnet). fold w0.
  destruct (session_block_shape method params w0)
    as (o & w' & body & -> & Htr & Hc & Hx & _ & Hs & Hfail & Hok).
  exists body. cbn [snd trace]. rewrite Htr. subst w0. cbn [trace].
  rewrite <- !app_assoc. cbn [app].
  split; [reflexivity|]. split; [assumption|]. split; [assumption|].
  split; [|split; assumption].
  destruct Hs as [[Hs Hcl] | [Hs | [(w1 & E1) Hs]]].
  - left. split; [exact Hs|]. cbn [closed] in Hcl. now destruct script.
  - right. now left.
  - right. right. split; [|exact Hs].
    destruct script as [|r1 rest].
    + rewrite enter_closed in E1 by reflexivity. discriminate.
    + exact (enter_return_created _ _ _ _ E1).
Qed.

Lemma execute_connected port method params w :
  connected (trace (snd (exec port method params w)))
  = connected (trace w) ++ [endpoint port].
Proof.
  destruct (net w (endpoint port)) as [|script later] eqn:Hnet.
  - rewrite (execute_refused _ _ _ _ Hnet). cbn [snd trace].
    now rewrite connected_app.
  - destruct (execute_shape port method params w script later Hnet)
      as (body & -> & Hc & _).
    rewrite connected_app.
    change (EvConnect (endpoint port) :: body ++ [EvClose])
      with ([EvConnect (endpoint port)] ++ body ++ [EvClose]).
    rewrite !connected_app, Hc. reflexivity.
Qed.

(** C4 (amended). Every call asks for exactly one connection, to
    [ws://localhost:<port>/session]: the port is the caller's, the host is
    always [localhost]. *)
Theorem C4_endpoint_is_localhost_port (port : Z) (method : string) (params : json)
    (w : World) :
  connected (trace (snd (exec port method params w)))
  = connected (trace w) ++ [("ws://localhost:" ++ str_int port ++ "/session")%string].
Proof.
  exact (execute_connected port method params w).
Qed.

(** C5 (amended). Every call whose connection is accepted opens it once and
    closes it once, at the end.  In between it sends a prefix of
    [session.new], the method, [session.end], each at most once and in that
    order: nothing only if the peer had already closed the connection; the
    method only if the session was created.  The method is never sent twice,
    never before [session.new] and never after [session.end].  When
    [session.new] is answered and the session is not created, nothing but
    [session.new] is sent; when the session is created and the peer is there
    to answer the method and [session.end], all three commands are sent. *)
Theorem C5_call_sequence (port : Z) (method : string) (params : json)
    (w : World) (script : list string) (later : list (list string)) :
  net w (endpoint port) = script :: later ->
  exists body,
    trace (snd (exec port method params w))
    = trace w ++ EvConnect (endpoint port) :: body ++ [EvClose]
    /\ connected body = [] /\ closes body = 0%nat
    /\ ((sent body = [] /\ script = [])
        \/ sent body = [new_wire]
        \/ (exists r1 rest, script = r1 :: rest /\ SessionCreated json_loads r1)
           /\ (sent body = [new_wire; wire method params]
               \/ sent body = [new_wire; wire method params; end_wire]))
    /\ (forall r1 rest,
          script = r1 :: rest -> ~ SessionCreated json_loads r1 ->
          sent body = [new_wire])
    /\ (forall r1 r2 r3 rest,
          script = r1 :: r2 :: r3 :: rest -> SessionCreated json_loads r1 ->
          sent body = [new_wire; wire method params; end_wire]).
Proof.
  intro Hnet.
  destruct (execute_shape port method params w script later Hnet)
    as (body & Htr & Hc & Hx & Hs & Hfail & Hok).
  exists body.
  split; [assumption|]. split; [assumption|]. split; [assumption|].
  split; [assumption|]. split.
  - intros r1 rest -> Hno.
    destruct (enter (mkWorld (update (net w) (endpoint port) later) (r1 :: rest) false
                       (trace w ++ [EvConnect (endpoint port)])))
      as [[[]|x] w1] eqn:E.
    + destruct (enter_return_created _ _ _ _ E) as (r & rs & [= <- <-] & Hcr).
      now destruct Hno.
    + exact (Hfail eq_refl _ _ E).
  - intros r1 r2 r3 rest -> H1.
    apply (Hok _ (session_enter_created _ _ _ _ H1)).
    exists r2, r3, rest. reflexivity.
Qed.

(** ** C8, C9, C10: tabs and the browser *)

Local Abbreviation navigate := (Tab.navigate json_dumps json_loads py_repr).
Local Abbreviation reload := (Tab.reload json_dumps json_loads py_repr).
Local Abbreviation get_tabs := (Browser.get_tabs json_dumps json_loads py_repr).
Local Abbreviation create_tab := (Browser.create_tab json_dumps json_loads py_repr).
Local Abbreviation navigate_params self url' :=
  (JObj [("url", JStr url'); ("context", Tab.id self); ("wait", JStr "complete")]).
Local Abbreviation reload_params self :=
  (JObj [("context", Tab.id self); ("wait", JStr "complete")]).

Lemma subscript_return v k w x w' :
  subscript v k w = (Return x, w') ->
  exists d, v = JObj d /\ dict_get d k = Some x.
Proof.
  unfold subscript. destruct v; try discriminate.
  destruct (dict_get d k) eqn:E; [|discriminate].
  intros [= <- _]. eauto.
Qed.

(** What a method that stores the reply's url can do to its tab. *)
Lemma url_update_frame (self : Tab.Tab) (o1 : outcome json) (w1 : World) :
  let r := match o1 with
           | Raise e => (Raise e, self, w1)
           | Return result =>
               if truthy result then
                 match subscript result "url" w1 with
                 | (Raise e, w2) => (Raise e, self, w2)
                 | (Return u, w2) =>
                     (Return true, Tab.mkTab (Tab.port self) (Tab.id self) u, w2)
                 end
               else (Return false, self, w1)
           end in
  (forall v, o1 = Return v -> truthy v = false -> r = (Return false, self, w1))
  /\ Tab.port (snd (fst r)) = Tab.port self
  /\ Tab.id (snd (fst r)) = Tab.id self
  /\ (Tab.url (snd (fst r)) = Tab.url self
      \/ exists d, o1 = Return (JObj d)
                   /\ dict_get d "url" = Some (Tab.url (snd (fst r)))
                   /\ fst (fst r) = Return true).
Proof.
  destruct o1 as [result|e]; cbn.
  2:{ repeat split; auto. discriminate. }
  split.
  { intros v [= <-] Hf. now rewrite Hf. }
  destruct (truthy result); cbn; [|auto].
  destruct (subscript result "url" w1) as [[u|e] w2] eqn:Es; cbn; [|auto].
  destruct (subscript_return _ _ _ _ _ Es) as (d & -> & Hu).
  repeat split. right. exists d. auto.
Qed.

(** C9. When [execute] hands [navigate] or [reload] nothing ([None], or any
    empty result), the method returns [False] and leaves the tab as it was.
    Whatever happens, port and id are never changed, and the tracked url is
    either left alone or set to the ["url"] entry of the result [execute]
    returned, in which case the method returns [True]. *)
Theorem C9_tab_frame (self : Tab.Tab) (url' : string) (w : World) :
  (forall v,
      fst (exec (Tab.port self) "browsingContext.navigate"
             (navigate_params self url') w) = Return v ->
      truthy v = false ->
      fst (navigate self url' w) = (Return false, self))
  /\ (forall v,
        fst (exec (Tab.port self) "browsingContext.reload" (reload_params self) w)
        = Return v ->
        truthy v = false ->
        fst (reload self w) = (Return false, self))
  /\ (Tab.port (snd (fst (navigate self url' w))) = Tab.port self
      /\ Tab.id (snd (fst (navigate self url' w))) = Tab.id self
      /\ (Tab.url (snd (fst (navigate self url' w))) = Tab.url self
          \/ exists d,
               fst (exec (Tab.port self) "browsingContext.navigate"
                      (navigate_params self url') w) = Return (JObj d)
               /\ dict_get d "url" = Some (Tab.url (snd (fst (navigate self url' w))))
               /\ fst (fst (navigate self url' w)) = Return true))
  /\ (Tab.port (snd (fst (reload self w))) = Tab.port self
      /\ Tab.id (snd (fst (reload self w))) = Tab.id self
      /\ (Tab.url (snd (fst (reload self w))) = Tab.url self
          \/ exists d,
               fst (exec (Tab.port self) "browsingContext.reload"
                      (reload_params self) w) = Return (JObj d)
               /\ dict_get d "url" = Some (Tab.url (snd (fst (reload self w))))
               /\ fst (fst (reload self w)) = Return true)).
Proof.
  unfold Tab.navigate, Tab.reload.
  destruct (exec (Tab.port self) "browsingContext.navigate" _ w) as [o1 w1].
  destruct (exec (Tab.port self) "browsingContext.reload" _ w) as [o2 w2].
  destruct (url_update_frame self o1 w1) as (A1 & B1 & C1 & D1).
  destruct (url_update_frame self o2 w2) as (A2 & B2 & C2 & D2).
  cbn [fst snd] in *.
  split; [intros v Hv Hf; now rewrite (A1 v Hv Hf)|].
  split; [intros v Hv Hf; now rewrite (A2 v Hv Hf)|].
  split; (split; [assumption|split; [assumption|]]); assumption.
Qed.

Lemma tabs_of_entries (self : Browser.Browser) (cs : list json)
    (tabs : list Tab.Tab) (w : World) :
  map (tab_of_entry (Browser.port self)) cs = map Some tabs ->
  Browser.tabs_of self cs w = (Return tabs, w).
Proof.
  revert tabs. induction cs as [|c cs IH]; intros [|t tabs] H; try discriminate.
  - reflexivity.
  - cbn [map] in H. injection H as Hc Hcs.
    cbn [Browser.tabs_of]. unfold tab_of_entry in Hc.
    destruct c; try discriminate.
    unfold bind at 1. cbn [subscript].
    destruct (dict_get d "context") as [i|]; [|discriminate].
    cbn. unfold bind at 1. cbn [subscript].
    destruct (dict_get d "url") as [u|]; [|discriminate].
    cbn. unfold bind at 1. rewrite (IH tabs Hcs). cbn.
    now injection Hc as <-.
Qed.

(** C10. [get_tabs] returns the empty list when [execute] returns [None] or
    any empty result; and when the result has a ["contexts"] list it returns
    one tab per entry, in order, each with the entry's ["context"] as id, the
    entry's ["url"], and the browser's port. *)
Theorem C10_get_tabs (self : Browser.Browser) (w : World) :
  (forall v,
      fst (exec (Browser.port self) "browsingContext.getTree"
             (JObj [("maxDepth", JNum 1)]) w) = Return v ->
      truthy v = false ->
      fst (get_tabs self w) = Return [])
  /\ (forall d cs tabs,
        fst (exec (Browser.port self) "browsingContext.getTree"
               (JObj [("maxDepth", JNum 1)]) w) = Return (JObj d) ->
        dict_get d "contexts" = Some (JList cs) ->
        map (tab_of_entry (Browser.port self)) cs = map Some tabs ->
        fst (get_tabs self w) = Return tabs).
Proof.
  assert (forall k : json -> M (list Tab.Tab),
             (response <- exec (Browser.port self) "browsingContext.getTree"
                            (JObj [("maxDepth", JNum 1)]) ;; k response) w
             = match exec (Browser.port self) "browsingContext.getTree"
                       (JObj [("maxDepth", JNum 1)]) w with
               | (Return a, w') => k a w'
               | (Raise e, w') => (Raise e, w')
               end) as Hbind by reflexivity.
  unfold Browser.get_tabs. rewrite Hbind. clear Hbind.
  destruct (exec (Browser.port self) "browsingContext.getTree" _ w) as [o w1].
  cbn [fst]. split.
  - intros v -> Hf. now rewrite Hf.
  - intros d cs tabs -> Hd Htabs.
    assert (truthy (JObj d) = true) as -> by (destruct d; [discriminate|reflexivity]).
    unfold bind at 1, subscript. rewrite Hd. cbn.
    now rewrite (tabs_of_entries self cs tabs w1 Htabs).
Qed.

(** C8. With [browsingContext.create] answered by
    [{"type":"success","result":{"context":"ctx-1"}}], [execute] returns a
    result whose ["context"] is ["ctx-1"] and [create_tab] yields the tab with
    that id; [navigate] on that tab, answered by
    [{"type":"success","result":{"url":"https://example.com"}}], sets the
    tab's url to ["https://example.com"] and returns [True]. *)
Theorem C8_create_then_navigate (port : Z) (w : World) (url' : string)
    (n1 created e1 n2 navigated e2 : string) (rest1 rest2 : list string)
    (later : list (list string)) :
  net w (endpoint port)
  = (n1 :: created :: e1 :: rest1) :: (n2 :: navigated :: e2 :: rest2) :: later ->
  SessionCreated json_loads n1 -> SessionEnded json_loads e1 ->
  SessionCreated json_loads n2 -> SessionEnded json_loads e2 ->
  created <> "" ->
  json_loads created
  = Some (JObj [("type", JStr "success");
                ("result", JObj [("context", JStr "ctx-1")])]) ->
  navigated <> "" ->
  json_loads navigated
  = Some (JObj [("type", JStr "success");
                ("result", JObj [("url", JStr "https://example.com")])]) ->
  exists w1 w2 : World,
    exec port "browsingContext.create" (JObj [("type", JStr "tab")]) w
    = (Return (JObj [("context", JStr "ctx-1")]), w1)
    /\ create_tab (Browser.mkBrowser port) w
       = (Return (Some (Tab.mkTab port (JStr "ctx-1") (JStr ""))), w1)
    /\ navigate (Tab.mkTab port (JStr "ctx-1") (JStr "")) url' w1
       = (Return true,
          Tab.mkTab port (JStr "ctx-1") (JStr "https://example.com"), w2).
Proof.
  intros Hnet Hn1 He1 Hn2 He2 Hc Hlc Hv Hlv.
  assert (Success json_loads created (JObj [("context", JStr "ctx-1")])) as Sc.
  { split; [exact Hc|]. eexists. split; [exact Hlc|]. split; reflexivity. }
  assert (Success json_loads navigated (JObj [("url", JStr "https://example.com")])) as Sv.
  { split; [exact Hv|]. eexists. split; [exact Hlv|]. split; reflexivity. }
  pose proof (execute_run port "browsingContext.create" (JObj [("type", JStr "tab")])
                w n1 created e1 rest1 _ (Return (JObj [("context", JStr "ctx-1")])) []
                Hnet Hn1 He1
                (fun n tr => send_command_success n created (e1 :: rest1) tr _ _ _ Sc))
    as E1.
  eexists. eexists. split; [exact E1|]. split.
  - unfold Browser.create_tab, bind at 1. cbn [Browser.port]. rewrite E1. reflexivity.
  - unfold Tab.navigate. cbn [Tab.port Tab.id].
    erewrite (execute_run port "browsingContext.navigate" _ _ n2 navigated e2 rest2 later
                (Return (JObj [("url", JStr "https://example.com")])) []).
    + reflexivity.
    + cbn [net]. unfold update. now rewrite String.eqb_refl.
    + exact Hn2.
    + exact He2.
    + intros n tr. now apply send_command_success.
Qed.

End Theory.





(* ================================================================= *)
(** * Further properties of the code *)

Section MoreTheory.

Variable json_dumps : json -> string.
Variable json_loads : string -> option json.
Variable py_repr : json -> string.

Local Abbreviation send_command := (_send_command json_dumps json_loads py_repr).
Local Abbreviation wire method params := (json_dumps (_make_command method params)).
Local Abbreviation new_wire := (wire "session.new" (JObj [("capabilities", JObj [])])).
Local Abbreviation end_wire := (wire "session.end" (JObj [])).
Local Abbreviation exec := (execute json_dumps json_loads py_repr).
Local Abbreviation enter := (Session___enter__ json_dumps json_loads py_repr).
Local Abbreviation exit := (Session___exit__ json_dumps json_loads py_repr).

(** ** webdriverbidi.py: when a call returns, and how it fails *)

(** X1. When the connection cannot be established, [execute] raises the
    connection error: the session is never entered, nothing is sent or
    received, and there is nothing to close. *)
Theorem X1_refused_connection (port : Z) (method : string) (params : json)
    (w : World) :
  net w (endpoint port) = [] ->
  fst (exec port method params w) = Raise ConnectionError
  /\ trace (snd (exec port method params w))
     = trace w ++ [EvConnect (endpoint port)].
Proof.
  intro H. now rewrite (execute_refused _ _ _ _ _ _ _ H).
Qed.

(** X2. [execute] returns a value only after the whole lifecycle: the
    connection was accepted, [session.new] was answered with a session
    identifier, the method was answered, and [session.end] was answered with
    a success.  The value is the result of the method's success envelope, or
    [None] for an answer that carries none; the fall-through [return None]
    of [execute] is never what returns. *)
Theorem X2_return_means_full_lifecycle (port : Z) (method : string) (params : json)
    (w : World) (v : json) :
  fst (exec port method params w) = Return v ->
  exists r1 r2 r3 rest later,
    net w (endpoint port) = (r1 :: r2 :: r3 :: rest) :: later
    /\ SessionCreated json_loads r1
    /\ SessionEnded json_loads r3
    /\ (Success json_loads r2 v \/ (v = JNull /\ Absent json_loads r2)).
Proof.
  intro H.
  destruct (net w (endpoint port)) as [|script later] eqn:Hnet.
  { rewrite (execute_refused _ _ _ _ _ _ _ Hnet) in H. discriminate. }
  rewrite (execute_accepted _ _ _ _ _ _ _ _ _ Hnet) in H.
  unfold with_ in H.
  destruct script as [|r1 rest1]; cbn [gone] in H.
  { rewrite enter_closed in H by reflexivity. discriminate. }
  destruct (enter _) as [[[]|e1] w1] eqn:E1; [|discriminate].
  destruct (enter_return_created _ _ _ _ _ _ _ E1) as (r & rs & [= <- <-] & Hc).
  rewrite (session_enter_created _ _ _ _ _ _ _ Hc) in E1. injection E1 as <-.
  unfold Session___call__ in H.
  destruct rest1 as [|r2 rest2]; cbn [gone] in H.
  { rewrite send_command_closed in H by reflexivity.
    rewrite exit_closed in H by reflexivity. discriminate. }
  destruct (send_command_answered json_dumps json_loads py_repr method params
              (update (net w) (endpoint port) later) r2 rest2
              ((trace w ++ [EvConnect (endpoint port)]) ++ [EvSend new_wire; EvRecv r1]))
    as (o & log & E2 & _).
  rewrite E2 in H.
  destruct o as [b|e2].
  - destruct (send_command_return_inv _ _ _ _ _ _ _ _ _ _ E2)
      as (r & rs & [= <- <-] & Hr2).
    destruct rest2 as [|r3 rest3]; cbn [gone] in H.
    { rewrite exit_closed in H by reflexivity. discriminate. }
    destruct (exit None _) as [[b3|e3] w3] eqn:E3; [|discriminate].
    destruct (exit_return_inv _ _ _ _ _ _ _ _ _ E3) as (r & rs & [= <- <-] & He).
    cbn in H. injection H as ->.
    exists r1, r2, r3, rest3, later. repeat split; assumption.
  - match type of H with
    | context [exit (Some e2) ?w2] =>
        pose proof (exit_never_true json_dumps json_loads py_repr (Some e2) w2) as NT;
        destruct (exit (Some e2) w2) as [[[|]|e3] w3]
    end; cbn in *; try discriminate. now destruct NT.
Qed.

(** X3. Replies that decode but are not the envelopes of the protocol: a
    JSON value that is not an object raises [AttributeError]; a success
    envelope without ["result"] raises [KeyError]; an error envelope without
    ["error"] or without ["message"] raises [KeyError] and logs nothing. *)
Theorem X3_incomplete_envelopes (method : string) (params : json)
    (n : string -> list (list string)) (r : string) (rest : list string)
    (tr : list event) (v : json) :
  r <> "" ->
  json_loads r = Some v ->
  ((forall d, v <> JObj d) ->
     fst (send_command method params (mkWorld n (r :: rest) false tr))
     = Raise AttributeError)
  /\ (forall d,
        v = JObj d -> dict_get d "type" = Some (JStr "success") ->
        dict_get d "result" = None ->
        fst (send_command method params (mkWorld n (r :: rest) false tr))
        = Raise (KeyError "result"))
  /\ (forall d,
        v = JObj d -> dict_get d "type" = Some (JStr "error") ->
        dict_get d "error" = None ->
        send_command method params (mkWorld n (r :: rest) false tr)
        = (Raise (KeyError "error"),
           mkWorld n rest (gone rest) (tr ++ [EvSend (wire method params); EvRecv r])))
  /\ (forall d kind,
        v = JObj d -> dict_get d "type" = Some (JStr "error") ->
        dict_get d "error" = Some kind -> dict_get d "message" = None ->
        send_command method params (mkWorld n (r :: rest) false tr)
        = (Raise (KeyError "message"),
           mkWorld n rest (gone rest) (tr ++ [EvSend (wire method params); EvRecv r]))).
Proof.
  intros Hne Hl.
  unfold _send_command, bind, ws_send, ws_recv, loads; cbn.
  rewrite (nonempty_eqb _ Hne); cbn. rewrite Hl; cbn.
  repeat split.
  - intro Hv. destruct v; try reflexivity. now destruct (Hv d).
  - intros d -> Ht Hr. cbn. rewrite Ht; cbn. now rewrite Hr.
  - intros d -> Ht He. cbn. rewrite Ht; cbn. rewrite He; cbn.
    now rewrite <- app_assoc.
  - intros d kind -> Ht He Hm. cbn. rewrite Ht; cbn. rewrite He; cbn.
    rewrite Hm; cbn. now rewrite <- app_assoc.
Qed.

(** ** tab.py and browser.py: what a reply becomes *)

Local Abbreviation navigate := (Tab.navigate json_dumps json_loads py_repr).
Local Abbreviation reload := (Tab.reload json_dumps json_loads py_repr).
Local Abbreviation get_tabs := (Browser.get_tabs json_dumps json_loads py_repr).
Local Abbreviation create_tab := (Browser.create_tab json_dumps json_loads py_repr).
Local Abbreviation close := (TabOps.close json_dumps json_loads py_repr).
Local Abbreviation evaluate := (TabOps.evaluate json_dumps json_loads py_repr).
Local Abbreviation printed script R :=
  ("Evaluated script: " ++ script ++ " -> " ++ py_str py_repr R)%string.

(** A call whose method is answered with a success envelope. *)
Lemma execute_success port method params w r1 r2 r3 rest later R :
  net w (endpoint port) = (r1 :: r2 :: r3 :: rest) :: later ->
  SessionCreated json_loads r1 ->
  Success json_loads r2 R ->
  SessionEnded json_loads r3 ->
  exec port method params w
  = (Return R,
     mkWorld (update (net w) (endpoint port) later) [] true
       (trace w ++ EvConnect (endpoint port) :: EvSend new_wire :: EvRecv r1
                :: EvSend (wire method params) :: EvRecv r2
                :: [EvSend end_wire; EvRecv r3; EvClose])).
Proof.
  intros Hnet H1 H2 H3.
  apply (execute_run json_dumps json_loads py_repr port method params w
           r1 r2 r3 rest later (Return R) [] Hnet H1 H3).
  intros n tr. now apply send_command_success.
Qed.

(** A call whose method gets an absent answer returns [None]. *)
Lemma execute_absent port method params w r1 r2 r3 rest later :
  net w (endpoint port) = (r1 :: r2 :: r3 :: rest) :: later ->
  SessionCreated json_loads r1 ->
  Absent json_loads r2 ->
  SessionEnded json_loads r3 ->
  fst (exec port method params w) = Return JNull.
Proof.
  intros Hnet H1 H2 H3.
  destruct H2 as [(kind & msg & H) | [-> | [H | H]]].
  - rewrite (execute_run json_dumps json_loads py_repr port method params w
               r1 r2 r3 rest later (Return JNull)
               [EvLog ("Error: " ++ py_str py_repr kind ++ ", Message: "
                         ++ py_str py_repr msg)%string] Hnet H1 H3); [reflexivity|].
    intros n tr. now apply send_command_error.
  - rewrite (execute_run json_dumps json_loads py_repr port method params w
               r1 "" r3 rest later (Return JNull) [] Hnet H1 H3); [reflexivity|].
    intros n tr. apply send_command_empty.
  - rewrite (execute_run json_dumps json_loads py_repr port method params w
               r1 r2 r3 rest later (Return JNull) [] Hnet H1 H3); [reflexivity|].
    intros n tr. now apply send_command_undiscriminated.
  - now rewrite (execute_success port method params w r1 r2 r3 rest later JNull
                   Hnet H1 H H3).
Qed.

(** X4. [close] reports success for every success envelope whose result is
    not [null], the empty mapping included, and failure for an error
    envelope, an empty frame or an undiscriminated object. *)
Theorem X4_close_reports_any_result (self : Tab.Tab) (w : World)
    (r1 r2 r3 : string) (rest : list string) (later : list (list string)) :
  net w (endpoint (Tab.port self)) = (r1 :: r2 :: r3 :: rest) :: later ->
  SessionCreated json_loads r1 ->
  SessionEnded json_loads r3 ->
  (forall R, Success json_loads r2 R -> R <> JNull ->
             fst (close self w) = Return true)
  /\ (Absent json_loads r2 -> fst (close self w) = Return false).
Proof.
  intros Hnet H1 H3. unfold TabOps.close. cbv zeta. split.
  - intros R H2 HR. unfold bind.
    rewrite (execute_success _ _ _ _ _ _ _ _ _ _ Hnet H1 H2 H3).
    destruct R; try reflexivity. now destruct HR.
  - intro H2. unfold bind.
    pose proof (execute_absent (Tab.port self) "browsingContext.close"
                  (JObj [("context", Tab.id self)]) w r1 r2 r3 rest later
                  Hnet H1 H2 H3) as E.
    destruct (exec _ _ _ w) as [o w']. cbn in E. now subst o.
Qed.

Lemma evaluate_unfold (self : Tab.Tab) (script : string) (p : Process) :
  evaluate self script p
  = match exec (Tab.port self) "script.evaluate" (evaluate_params self script)
            (world p) with
    | (Raise e, w1) => (Raise e, mkProcess w1 (stdout p))
    | (Return R, w1) =>
        if truthy R then
          match R with
          | JObj d =>
              (Return (match dict_get d "result" with
                       | Some r => if truthy r then r else JNull
                       | None => JNull
                       end),
               mkProcess w1 (stdout p ++ [printed script R]))
          | _ => (Raise AttributeError, mkProcess w1 (stdout p ++ [printed script R]))
          end
        else (Return JNull, mkProcess w1 (stdout p))
    end.
Proof.
  unfold TabOps.evaluate, evaluate_params. cbv zeta.
  unfold pbind at 1. unfold lift at 1.
  destruct (exec _ _ _ (world p)) as [[R|e] w1]; [|reflexivity].
  destruct (truthy R) eqn:T; [|reflexivity].
  unfold pbind, print, lift, get, pret, ret, raise; cbn.
  destruct R; try reflexivity.
  destruct (dict_get d "result"); reflexivity.
Qed.

(** X5. A success envelope whose result is empty is taken for a failure by
    every method that tests the result for truth: [navigate] and [reload]
    return [False] and leave the tab alone, [create_tab] returns [None],
    [get_tabs] returns no tabs, [evaluate] returns [None] and prints nothing. *)
Theorem X5_empty_result_is_failure (self : Tab.Tab) (url' script : string)
    (w : World) (out : list string) (R : json)
    (r1 r2 r3 : string) (rest : list string) (later : list (list string)) :
  net w (endpoint (Tab.port self)) = (r1 :: r2 :: r3 :: rest) :: later ->
  SessionCreated json_loads r1 ->
  Success json_loads r2 R ->
  truthy R = false ->
  SessionEnded json_loads r3 ->
  fst (navigate self url' w) = (Return false, self)
  /\ fst (reload self w) = (Return false, self)
  /\ fst (create_tab (Browser.mkBrowser (Tab.port self)) w) = Return None
  /\ fst (get_tabs (Browser.mkBrowser (Tab.port self)) w) = Return []
  /\ fst (evaluate self script (mkProcess w out)) = Return JNull
  /\ stdout (snd (evaluate self script (mkProcess w out))) = out.
Proof.
  intros Hnet H1 H2 HR H3.
  pose proof (fun method params =>
                execute_success (Tab.port self) method params w r1 r2 r3 rest later R
                  Hnet H1 H2 H3) as E.
  repeat split.
  - unfold Tab.navigate. cbv zeta. rewrite E. now rewrite HR.
  - unfold Tab.reload. cbv zeta. rewrite E. now rewrite HR.
  - unfold Browser.create_tab. cbv zeta. unfold bind. cbn [Browser.port].
    rewrite E. now rewrite HR.
  - unfold Browser.get_tabs. cbv zeta. unfold bind. cbn [Browser.port].
    rewrite E. now rewrite HR.
  - rewrite evaluate_unfold. cbn [world]. rewrite E. now rewrite HR.
  - rewrite evaluate_unfold. cbn [world]. rewrite E. now rewrite HR.
Qed.

Lemma evaluate_none_or_truthy (self : Tab.Tab) (script : string)
    (p p1 : Process) (v : json) :
  evaluate self script p = (Return v, p1) ->
  v = JNull \/ truthy v = true.
Proof.
  rewrite evaluate_unfold.
  destruct (exec _ _ _ (world p)) as [[R|e] w1]; [|discriminate].
  destruct (truthy R); [|intros [= <- _]; now left].
  destruct R; try discriminate.
  destruct (dict_get d "result") as [r|]; [|intros [= <- _]; now left].
  destruct (truthy r) eqn:T; intros [= <- _]; [now right | now left].
Qed.

(** X6. [evaluate] returns [None] or a non-empty value, never an empty one:
    testing its result for truth and testing it against [None] agree. *)
Theorem X6_evaluate_none_or_truthy (self : Tab.Tab) (script : string)
    (p : Process) (v : json) :
  fst (evaluate self script p) = Return v ->
  v = JNull \/ truthy v = true.
Proof.
  destruct (evaluate self script p) as [o p1] eqn:E. cbn. intros ->.
  exact (evaluate_none_or_truthy self script p p1 v E).
Qed.

(** X7. When [execute] hands [evaluate] a non-empty mapping, [evaluate]
    prints one line with the script and the mapping, and returns the
    mapping's ["result"] entry; a missing entry (the script threw) or an
    empty one gives [None], not an exception. *)
Theorem X7_evaluate_result_entry (self : Tab.Tab) (script : string)
    (p : Process) (d : list (string * json)) (w1 : World) :
  exec (Tab.port self) "script.evaluate" (evaluate_params self script) (world p)
  = (Return (JObj d), w1) ->
  d <> [] ->
  stdout (snd (evaluate self script p))
  = stdout p ++ [printed script (JObj d)]
  /\ world (snd (evaluate self script p)) = w1
  /\ (dict_get d "result" = None -> fst (evaluate self script p) = Return JNull)
  /\ (forall r, dict_get d "result" = Some r ->
                fst (evaluate self script p)
                = Return (if truthy r then r else JNull)).
Proof.
  intros E Hd. rewrite evaluate_unfold, E.
  assert (truthy (JObj d) = true) as -> by (destruct d; [now destruct Hd|reflexivity]).
  cbn [fst snd stdout world]. repeat split.
  - now intros ->.
  - now intros r ->.
Qed.

(** ** tab.py: the helpers built on [evaluate] *)

Local Abbreviation click_element := (TabOps.click_element json_dumps json_loads py_repr).
Local Abbreviation focus_element := (TabOps.focus_element json_dumps json_loads py_repr).
Local Abbreviation scroll_element := (TabOps.scroll_element json_dumps json_loads py_repr).
Local Abbreviation set_element_attribute :=
  (TabOps.set_element_attribute json_dumps json_loads py_repr).
Local Abbreviation remove_element_attribute :=
  (TabOps.remove_element_attribute json_dumps json_loads py_repr).
Local Abbreviation get_element_attribute :=
  (TabOps.get_element_attribute json_dumps json_loads py_repr).
Local Abbreviation has_element_attribute :=
  (TabOps.has_element_attribute json_dumps json_loads py_repr).
Local Abbreviation is_element_disabled :=
  (TabOps.is_element_disabled json_dumps json_loads py_repr).
Local Abbreviation is_element_found :=
  (TabOps.is_element_found json_dumps json_loads py_repr).
Local Abbreviation is_element_displayed :=
  (TabOps.is_element_displayed json_dumps json_loads py_repr).
Local Abbreviation is_element_equal_to :=
  (TabOps.is_element_equal_to json_dumps json_loads py_repr).
(** The server's result mapping has a non-empty ["result"] entry. *)
Local Abbreviation evaluated_something self script p :=
  (exists d r,
      fst (exec (Tab.port self) "script.evaluate" (evaluate_params self script)
             (world p)) = Return (JObj d)
      /\ dict_get d "result" = Some r /\ truthy r = true).

Lemma truthy_not_None v : truthy v = true -> is_not_None v = true.
Proof. now destruct v. Qed.

Lemma action_true_iff (self : Tab.Tab) (script : string) (p : Process) (b : bool) :
  fst ((r <~ evaluate self script ;; pret (is_not_None r)) p) = Return b ->
  (b = true <-> evaluated_something self script p).
Proof.
  unfold pbind. rewrite evaluate_unfold.
  destruct (exec _ _ _ (world p)) as [[R|e] w1]; [|discriminate].
  cbn [fst].
  destruct (truthy R) eqn:TR.
  - destruct R; try discriminate.
    destruct (dict_get d "result") as [r|] eqn:Er.
    + destruct (truthy r) eqn:Tr; cbn; intros [= <-].
      * rewrite (truthy_not_None r Tr). split; [|reflexivity].
        intros _. exists d, r. auto.
      * split; [discriminate|].
        intros (d' & r' & [= <-] & Hr & Ht). congruence.
    + cbn. intros [= <-]. split; [discriminate|].
      intros (d' & r' & [= <-] & Hr & _). congruence.
  - cbn. intros [= <-]. split; [discriminate|].
    intros (d' & r' & [= ->] & Hr & _).
    destruct d'; [discriminate Hr | discriminate TR].
Qed.

(** X8. The actions [click_element], [focus_element], [scroll_element],
    [set_element_attribute] and [remove_element_attribute] return [True]
    exactly when the server's result mapping for their script has a
    non-empty ["result"] entry; otherwise, if they return at all, they
    return [False]. *)
Theorem X8_actions_succeed_on_result (self : Tab.Tab)
    (query attribute value : string) (p : Process) :
  (forall b, fst (click_element self query p) = Return b ->
     (b = true <-> evaluated_something self (" " ++ query ++ ".click() ")%string p))
  /\ (forall b, fst (focus_element self query p) = Return b ->
     (b = true <-> evaluated_something self (" " ++ query ++ ".focus() ")%string p))
  /\ (forall b, fst (scroll_element self query p) = Return b ->
     (b = true <->
      evaluated_something self
        (" " ++ query ++ ".scrollIntoView({" ++ TabOps.dq ++ "block" ++ TabOps.dq
             ++ ": " ++ TabOps.dq ++ "center" ++ TabOps.dq ++ ", " ++ TabOps.dq
             ++ "inline" ++ TabOps.dq ++ ": " ++ TabOps.dq ++ "nearest"
             ++ TabOps.dq ++ "}) ")%string p))
  /\ (forall b, fst (set_element_attribute self query attribute value p) = Return b ->
     (b = true <->
      evaluated_something self
        (String.concat ";"
           [ (" var element = " ++ query ++ " ")%string;
             (" element." ++ attribute ++ " = '" ++ value ++ "' ")%string;
             " element.dispatchEvent(new Event('input')) ";
             " element.dispatchEvent(new Event('change')) " ]) p))
  /\ (forall b, fst (remove_element_attribute self query attribute p) = Return b ->
     (b = true <->
      evaluated_something self
        (" " ++ query ++ ".removeAttribute('" ++ attribute ++ "') ")%string p)).
Proof.
  split; [|split; [|split; [|split]]]; intros b Hb;
    exact (action_true_iff _ _ _ _ Hb).
Qed.

Lemma lift_subscript v k p :
  lift (subscript v k) p
  = match v with
    | JObj d => match dict_get d k with
                | Some x => (Return x, p)
                | None => (Raise (KeyError k), p)
                end
    | _ => (Raise TypeError, p)
    end.
Proof.
  destruct p as [w out]. unfold lift, subscript, ret, raise. cbn.
  destruct v; try reflexivity. destruct (dict_get d k); reflexivity.
Qed.

Lemma evaluate_mapping_truthy self script p d p1 :
  evaluate self script p = (Return (JObj d), p1) -> truthy (JObj d) = true.
Proof.
  intro E. destruct (evaluate_none_or_truthy _ _ _ _ _ E) as [H|H];
    [discriminate | exact H].
Qed.

(** The body shared by [has_element_attribute] and [get_element_attribute]. *)
Lemma typed_reader self script p d p1 :
  evaluate self script p = (Return (JObj d), p1) ->
  (response <~ evaluate self script ;;
   if truthy response then
     t <~ lift (subscript response "type") ;;
     if negb (eq_str t "null") then lift (subscript response "value")
     else pret JNull
   else pret JNull) p
  = match dict_get d "type" with
    | None => (Raise (KeyError "type"), p1)
    | Some t =>
        if eq_str t "null" then (Return JNull, p1)
        else match dict_get d "value" with
             | Some v => (Return v, p1)
             | None => (Raise (KeyError "value"), p1)
             end
    end.
Proof.
  intro E. unfold pbind at 1. rewrite E, (evaluate_mapping_truthy _ _ _ _ _ E).
  unfold pbind. rewrite lift_subscript.
  destruct (dict_get d "type") as [t|]; [|reflexivity].
  destruct (eq_str t "null"); cbn [negb]; [reflexivity|].
  now rewrite lift_subscript.
Qed.

(** X9. [get_element_attribute] and [has_element_attribute] return [None]
    for a script value of type ["null"]; for any other type they return the
    ["value"] entry, and raise [KeyError] when the value has none (as for
    [undefined]). *)
Theorem X9_attribute_readers (self : Tab.Tab) (query attribute : string)
    (p : Process) :
  (forall d p1,
      evaluate self (" " ++ query ++ "." ++ attribute ++ " ")%string p
      = (Return (JObj d), p1) ->
      (dict_get d "type" = Some (JStr "null") ->
         get_element_attribute self query attribute p = (Return JNull, p1))
      /\ (forall t, dict_get d "type" = Some t -> eq_str t "null" = false ->
            get_element_attribute self query attribute p
            = (match dict_get d "value" with
               | Some v => Return v
               | None => Raise (KeyError "value")
               end, p1)))
  /\ (forall d p1,
        evaluate self (" " ++ query ++ ".hasAttribute('" ++ attribute ++ "') ")%string p
        = (Return (JObj d), p1) ->
        (dict_get d "type" = Some (JStr "null") ->
           has_element_attribute self query attribute p = (Return JNull, p1))
        /\ (forall t, dict_get d "type" = Some t -> eq_str t "null" = false ->
              has_element_attribute self query attribute p
              = (match dict_get d "value" with
                 | Some v => Return v
                 | None => Raise (KeyError "value")
                 end, p1))).
Proof.
  split; intros d p1 E.
  - unfold TabOps.get_element_attribute. rewrite (typed_reader _ _ _ _ _ E).
    split.
    + now intros ->.
    + intros t -> ->. now destruct (dict_get d "value").
  - unfold TabOps.has_element_attribute. rewrite (typed_reader _ _ _ _ _ E).
    split.
    + now intros ->.
    + intros t -> ->. now destruct (dict_get d "value").
Qed.

(** X10. [is_element_found] answers [None], [True] or [False] and nothing
    else; for a script value with a ["type"] it answers whether that type
    differs from ["null"]. *)
Theorem X10_is_element_found_is_optional_bool (self : Tab.Tab) (query : string)
    (p : Process) :
  (forall v, fst (is_element_found self query p) = Return v ->
             v = JNull \/ v = JBool true \/ v = JBool false)
  /\ (forall d p1 t,
        evaluate self query p = (Return (JObj d), p1) ->
        dict_get d "type" = Some t ->
        is_element_found self query p = (Return (JBool (negb (eq_str t "null"))), p1)).
Proof.
  unfold TabOps.is_element_found. split.
  - intro v. unfold pbind at 1.
    destruct (evaluate self query p) as [[r|e] p1]; [|discriminate].
    destruct (truthy r); [|cbn; intros [= <-]; now left].
    unfold pbind. rewrite lift_subscript.
    destruct r; try discriminate.
    destruct (dict_get d "type") as [t|]; [|discriminate].
    cbn. intros [= <-]. destruct (eq_str t "null"); auto.
  - intros d p1 t E Ht. unfold pbind at 1.
    rewrite E, (evaluate_mapping_truthy _ _ _ _ _ E).
    unfold pbind. rewrite lift_subscript, Ht. reflexivity.
Qed.

(** X11. [is_element_displayed] and [is_element_equal_to] read the
    ["value"] entry of the script value without looking at its type: they
    return it when it is there and raise [KeyError] when it is not, also for
    a value of type ["null"]. *)
Theorem X11_untyped_readers (self : Tab.Tab) (query query2 : string) (p : Process) :
  (forall d p1,
      evaluate self
        (String.concat ";"
           [ (" var element = " ++ query ++ " ")%string;
             " var rect = element.getBoundingClientRect() ";
             String.concat "&&"
               [ "rect.top >= 0";
                 "rect.left >= 0";
                 "rect.bottom <= (window.innerHeight || document.documentElement.clientHeight)";
                 "rect.right <= (window.innerWidth || document.documentElement.clientWidth)" ] ]) p
      = (Return (JObj d), p1) ->
      is_element_displayed self query p
      = (match dict_get d "value" with
         | Some v => Return v
         | None => Raise (KeyError "value")
         end, p1))
  /\ (forall d p1,
        evaluate self (" " ++ query ++ " === " ++ query2 ++ " ")%string p
        = (Return (JObj d), p1) ->
        is_element_equal_to self query query2 p
        = (match dict_get d "value" with
           | Some v => Return v
           | None => Raise (KeyError "value")
           end, p1)).
Proof.
  split; intros d p1 E.
  - unfold TabOps.is_element_displayed, pbind.
    rewrite E, (evaluate_mapping_truthy _ _ _ _ _ E), lift_subscript.
    now destruct (dict_get d "value").
  - unfold TabOps.is_element_equal_to, pbind.
    rewrite E, (evaluate_mapping_truthy _ _ _ _ _ E), lift_subscript.
    now destruct (dict_get d "value").
Qed.

(** ** browser.py and tab.py: missing keys *)

Lemma bind_execute {A} port method params (k : json -> M A) w :
  (response <- exec port method params ;; k response) w
  = match exec port method params w with
    | (Return a, w') => k a w'
    | (Raise e, w') => (Raise e, w')
    end.
Proof. reflexivity. Qed.

(** X12. [create_tab] returns [None] when [execute] returns nothing or an
    empty result; the tab with the result's ["context"] as id, an empty url
    and the browser's port when there is one; and raises [KeyError] for a
    non-empty result without ["context"]. *)
Theorem X12_create_tab (self : Browser.Browser) (w : World) :
  (forall v,
      fst (exec (Browser.port self) "browsingContext.create"
             (JObj [("type", JStr "tab")]) w) = Return v ->
      truthy v = false ->
      fst (create_tab self w) = Return None)
  /\ (forall d i,
        fst (exec (Browser.port self) "browsingContext.create"
               (JObj [("type", JStr "tab")]) w) = Return (JObj d) ->
        dict_get d "context" = Some i ->
        fst (create_tab self w)
        = Return (Some (Tab.mkTab (Browser.port self) i (JStr ""))))
  /\ (forall d,
        fst (exec (Browser.port self) "browsingContext.create"
               (JObj [("type", JStr "tab")]) w) = Return (JObj d) ->
        d <> [] ->
        dict_get d "context" = None ->
        fst (create_tab self w) = Raise (KeyError "context")).
Proof.
  unfold Browser.create_tab. cbv zeta. rewrite bind_execute.
  destruct (exec (Browser.port self) "browsingContext.create" _ w) as [o w1].
  cbn [fst]. repeat split.
  - intros v -> Hf. now rewrite Hf.
  - intros d i -> Hd.
    assert (truthy (JObj d) = true) as -> by (destruct d; [discriminate|reflexivity]).
    unfold bind, subscript. now rewrite Hd.
  - intros d -> Hne Hd.
    assert (truthy (JObj d) = true) as -> by (destruct d; [now destruct Hne|reflexivity]).
    unfold bind, subscript. now rewrite Hd.
Qed.

Lemma tabs_of_raises (self : Browser.Browser) (cs : list json) (w : World) :
  (exists c, In c cs /\ tab_of_entry (Browser.port self) c = None) ->
  exists e,
    Browser.tabs_of self cs w = (Raise e, w)
    /\ (e = TypeError \/ e = KeyError "context" \/ e = KeyError "url").
Proof.
  induction cs as [|c cs IH]; intros (c0 & Hin & Hbad); [destruct Hin|].
  cbn [Browser.tabs_of]. unfold bind, subscript, ret, raise.
  destruct c; try (exists TypeError; split; [reflexivity | now left]).
  destruct (dict_get d "context") as [i|] eqn:Ei;
    [|exists (KeyError "context"); split; [reflexivity | right; now left]].
  destruct (dict_get d "url") as [u|] eqn:Eu;
    [|exists (KeyError "url"); split; [reflexivity | right; now right]].
  destruct Hin as [<- | Hin].
  { unfold tab_of_entry in Hbad. rewrite Ei, Eu in Hbad. discriminate. }
  destruct IH as (e & -> & He); [now exists c0|].
  exists e. split; [reflexivity | exact He].
Qed.

(** X13. [get_tabs] is all or nothing: if any entry of the ["contexts"] list
    is not a mapping with both ["context"] and ["url"], the call raises
    ([TypeError] or [KeyError]) and returns no tab at all, not a shorter
    list. *)
Theorem X13_get_tabs_all_or_nothing (self : Browser.Browser) (w : World)
    (d : list (string * json)) (cs : list json) :
  fst (exec (Browser.port self) "browsingContext.getTree"
         (JObj [("maxDepth", JNum 1)]) w) = Return (JObj d) ->
  dict_get d "contexts" = Some (JList cs) ->
  (exists c, In c cs /\ tab_of_entry (Browser.port self) c = None) ->
  exists e,
    fst (get_tabs self w) = Raise e
    /\ (e = TypeError \/ e = KeyError "context" \/ e = KeyError "url").
Proof.
  unfold Browser.get_tabs. cbv zeta. rewrite bind_execute.
  destruct (exec (Browser.port self) "browsingContext.getTree" _ w) as [o w1].
  cbn [fst]. intros -> Hd Hbad.
  assert (truthy (JObj d) = true) as -> by (destruct d; [discriminate|reflexivity]).
  unfold bind at 1, subscript. rewrite Hd. cbn.
  destruct (tabs_of_raises self cs w1 Hbad) as (e & -> & He).
  exists e. split; [reflexivity | exact He].
Qed.

(** X14. What [get_tabs] does with a result whose ["contexts"] is not a
    list: a missing entry raises [KeyError]; an empty mapping or an empty
    string is iterated as nothing and gives no tabs; [None], a boolean or a
    number is not iterable and raises [TypeError]; a non-empty mapping or
    string is iterated as its keys or characters, which are not entries, and
    raises [TypeError]. *)
Theorem X14_get_tabs_contexts_not_a_list (self : Browser.Browser) (w : World)
    (d : list (string * json)) :
  fst (exec (Browser.port self) "browsingContext.getTree"
         (JObj [("maxDepth", JNum 1)]) w) = Return (JObj d) ->
  d <> [] ->
  (dict_get d "contexts" = None ->
     fst (get_tabs self w) = Raise (KeyError "contexts"))
  /\ (dict_get d "contexts" = Some (JObj []) \/ dict_get d "contexts" = Some (JStr "") ->
      fst (get_tabs self w) = Return [])
  /\ (forall x, dict_get d "contexts" = Some x ->
                x = JNull \/ (exists b, x = JBool b) \/ (exists n, x = JNum n) ->
                fst (get_tabs self w) = Raise TypeError)
  /\ (forall k v m, dict_get d "contexts" = Some (JObj ((k, v) :: m)) ->
                    fst (get_tabs self w) = Raise TypeError)
  /\ (forall c s, dict_get d "contexts" = Some (JStr (String c s)) ->
                  fst (get_tabs self w) = Raise TypeError).
Proof.
  unfold Browser.get_tabs. cbv zeta. rewrite bind_execute.
  destruct (exec (Browser.port self) "browsingContext.getTree" _ w) as [o w1].
  cbn [fst]. intros -> Hne.
  assert (truthy (JObj d) = true) as -> by (destruct d; [now destruct Hne|reflexivity]).
  unfold bind at 1, subscript. repeat split.
  - now intros ->.
  - now intros [-> | ->].
  - intros x -> [-> | [(b & ->) | (n & ->)]]; reflexivity.
  - now intros k v m ->.
  - now intros c s ->.
Qed.

(** X15. When [execute] returns a non-empty mapping without ["url"],
    [navigate] and [reload] raise [KeyError] and leave the tab as it was. *)
Theorem X15_navigate_reload_missing_url (self : Tab.Tab) (url' : string) (w : World) :
  (forall d w1,
      exec (Tab.port self) "browsingContext.navigate"
        (JObj [("url", JStr url'); ("context", Tab.id self); ("wait", JStr "complete")]) w
      = (Return (JObj d), w1) ->
      d <> [] -> dict_get d "url" = None ->
      navigate self url' w = (Raise (KeyError "url"), self, w1))
  /\ (forall d w1,
        exec (Tab.port self) "browsingContext.reload"
          (JObj [("context", Tab.id self); ("wait", JStr "complete")]) w
        = (Return (JObj d), w1) ->
        d <> [] -> dict_get d "url" = None ->
        reload self w = (Raise (KeyError "url"), self, w1)).
Proof.
  split; intros d w1 E Hne Hu.
  - unfold Tab.navigate. cbv zeta. rewrite E.
    assert (truthy (JObj d) = true) as -> by (destruct d; [now destruct Hne|reflexivity]).
    unfold subscript. now rewrite Hu.
  - unfold Tab.reload. cbv zeta. rewrite E.
    assert (truthy (JObj d) = true) as -> by (destruct d; [now destruct Hne|reflexivity]).
    unfold subscript. now rewrite Hu.
Qed.

(** ** One connection for every operation *)

Lemma evaluate_world (self : Tab.Tab) (script : string) (p : Process) :
  world (snd (evaluate self script p))
  = snd (exec (Tab.port self) "script.evaluate" (evaluate_params self script) (world p)).
Proof.
  rewrite evaluate_unfold.
  destruct (exec _ _ _ (world p)) as [[R|e] w1]; [|reflexivity].
  destruct (truthy R); [|reflexivity]. now destruct R.
Qed.

Lemma after_evaluate {A} (self : Tab.Tab) (script : string) (k : json -> P A)
    (p : Process) :
  (forall r p1, world (snd (k r p1)) = world p1) ->
  world (snd ((r <~ evaluate self script ;; k r) p))
  = snd (exec (Tab.port self) "script.evaluate" (evaluate_params self script) (world p)).
Proof.
  intro Hk. rewrite <- evaluate_world. unfold pbind.
  destruct (evaluate self script p) as [[r|e] p1]; [apply Hk | reflexivity].
Qed.

Lemma lift_subscript_world v k p : world (snd (lift (subscript v k) p)) = world p.
Proof.
  rewrite lift_subscript. destruct v; try reflexivity.
  now destruct (dict_get d k).
Qed.

Lemma tabs_of_world (self : Browser.Browser) (cs : list json) (w : World) :
  snd (Browser.tabs_of self cs w) = w.
Proof.
  induction cs as [|c cs IH]; [reflexivity|].
  cbn [Browser.tabs_of]. unfold bind, subscript, ret, raise.
  destruct c; try reflexivity.
  destruct (dict_get d "context"); [|reflexivity].
  destruct (dict_get d "url"); [|reflexivity].
  specialize IH. destruct (Browser.tabs_of self cs w) as [[ts|e] w'];
    cbn in IH; now subst.
Qed.

Ltac after_one_evaluate :=
  match goal with
  | |- one_connection _ _ (world (snd ((_ <~ TabOps.evaluate _ _ _ _ _ ;; _) _))) =>
      unfold one_connection; rewrite after_evaluate;
      [ apply execute_connected
      | let r := fresh "r" in
        let p1 := fresh "p1" in
        intros r p1;
        try (destruct (truthy r); [|reflexivity]);
        unfold pbind; try rewrite lift_subscript;
        try (destruct r; try reflexivity;
             match goal with
             | |- context [dict_get ?d ?k] => destruct (dict_get d k); try reflexivity
             end);
        try (match goal with
             | |- context [negb ?b] => destruct b; cbn [negb]; try reflexivity
             end);
        try apply lift_subscript_world; reflexivity ]
  end.

(** X16. Every operation of a tab or of the browser makes exactly one
    connection, to [ws://localhost:<port>/session] with the port the object
    was built with, whatever the server answers and whether the operation
    returns or raises. *)
Theorem X16_one_connection_per_operation (self : Tab.Tab) (browser : Browser.Browser)
    (url' script query query2 attribute value : string)
    (w : World) (out : list string) :
  one_connection (Tab.port self) w (snd (navigate self url' w))
  /\ one_connection (Tab.port self) w (snd (reload self w))
  /\ one_connection (Tab.port self) w (snd (close self w))
  /\ one_connection (Tab.port self) w
       (world (snd (evaluate self script (mkProcess w out))))
  /\ one_connection (Tab.port self) w
       (world (snd (has_element_attribute self query attribute (mkProcess w out))))
  /\ one_connection (Tab.port self) w
       (world (snd (get_element_attribute self query attribute (mkProcess w out))))
  /\ one_connection (Tab.port self) w
       (world (snd (set_element_attribute self query attribute value (mkProcess w out))))
  /\ one_connection (Tab.port self) w
       (world (snd (remove_element_attribute self query attribute (mkProcess w out))))
  /\ one_connection (Tab.port self) w
       (world (snd (is_element_found self query (mkProcess w out))))
  /\ one_connection (Tab.port self) w
       (world (snd (is_element_displayed self query (mkProcess w out))))
  /\ one_connection (Tab.port self) w
       (world (snd (is_element_disabled self query (mkProcess w out))))
  /\ one_connection (Tab.port self) w
       (world (snd (is_element_equal_to self query query2 (mkProcess w out))))
  /\ one_connection (Tab.port self) w
       (world (snd (focus_element self query (mkProcess w out))))
  /\ one_connection (Tab.port self) w
       (world (snd (click_element self query (mkProcess w out))))
  /\ one_connection (Tab.port self) w
       (world (snd (scroll_element self query (mkProcess w out))))
  /\ one_connection (Browser.port browser) w (snd (get_tabs browser w))
  /\ one_connection (Browser.port browser) w (snd (create_tab browser w)).
Proof.
  assert (forall method params (o : outcome json) w1,
             exec (Tab.port self) method params w = (o, w1) ->
             one_connection (Tab.port self) w w1) as Ht.
  { intros method params o w1 E. unfold one_connection.
    rewrite <- (execute_connected json_dumps json_loads py_repr (Tab.port self)
                  method params w). now rewrite E. }
  assert (forall method params (o : outcome json) w1,
             exec (Browser.port browser) method params w = (o, w1) ->
             one_connection (Browser.port browser) w w1) as Hb.
  { intros method params o w1 E. unfold one_connection.
    rewrite <- (execute_connected json_dumps json_loads py_repr (Browser.port browser)
                  method params w). now rewrite E. }
  repeat apply conj.
  - unfold Tab.navigate. cbv zeta.
    destruct (exec _ _ _ w) as [[R|e] w1] eqn:E; [|exact (Ht _ _ _ _ E)].
    destruct (truthy R); [|exact (Ht _ _ _ _ E)].
    pose proof (subscript_world R "url" w1) as Hs.
    destruct (subscript R "url" w1) as [[u|e] w2]; cbn in Hs; subst w2;
      exact (Ht _ _ _ _ E).
  - unfold Tab.reload. cbv zeta.
    destruct (exec _ _ _ w) as [[R|e] w1] eqn:E; [|exact (Ht _ _ _ _ E)].
    destruct (truthy R); [|exact (Ht _ _ _ _ E)].
    pose proof (subscript_world R "url" w1) as Hs.
    destruct (subscript R "url" w1) as [[u|e] w2]; cbn in Hs; subst w2;
      exact (Ht _ _ _ _ E).
  - unfold TabOps.close. cbv zeta. rewrite bind_execute.
    destruct (exec _ _ _ w) as [[R|e] w1] eqn:E; exact (Ht _ _ _ _ E).
  - unfold one_connection. rewrite evaluate_world. apply execute_connected.
  - unfold TabOps.has_element_attribute. after_one_evaluate.
  - unfold TabOps.get_element_attribute. after_one_evaluate.
  - unfold TabOps.set_element_attribute. after_one_evaluate.
  - unfold TabOps.remove_element_attribute. after_one_evaluate.
  - unfold TabOps.is_element_found. after_one_evaluate.
  - unfold TabOps.is_element_displayed. after_one_evaluate.
  - unfold TabOps.is_element_disabled, TabOps.has_element_attribute. after_one_evaluate.
  - unfold TabOps.is_element_equal_to. after_one_evaluate.
  - unfold TabOps.focus_element. after_one_evaluate.
  - unfold TabOps.click_element. after_one_evaluate.
  - unfold TabOps.scroll_element. after_one_evaluate.
  - unfold Browser.get_tabs. cbv zeta. rewrite bind_execute.
    destruct (exec _ _ _ w) as [[R|e] w1] eqn:E; [|exact (Hb _ _ _ _ E)].
    destruct (truthy R); [|exact (Hb _ _ _ _ E)].
    unfold bind, subscript, Browser.iterate, ret, raise.
    destruct R; try exact (Hb _ _ _ _ E).
    destruct (dict_get d "contexts") as [x|]; [|exact (Hb _ _ _ _ E)].
    destruct x; try exact (Hb _ _ _ _ E); rewrite tabs_of_world; exact (Hb _ _ _ _ E).
  - unfold Browser.create_tab. cbv zeta. rewrite bind_execute.
    destruct (exec _ _ _ w) as [[R|e] w1] eqn:E; [|exact (Hb _ _ _ _ E)].
    destruct (truthy R); [|exact (Hb _ _ _ _ E)].
    unfold bind, subscript, ret, raise.
    destruct R; try exact (Hb _ _ _ _ E).
    destruct (dict_get d "context"); exact (Hb _ _ _ _ E).
Qed.

(** ** What is logged *)

Local Abbreviation log_line kind msg :=
  ("Error: " ++ py_str py_repr kind ++ ", Message: " ++ py_str py_repr msg)%string.
(** Every record logged between [w] and [w'] reports an error envelope
    among the frames [src]. *)
Local Abbreviation logs_from src w w' :=
  (forall record,
      In record (logged (trace w')) ->
      In record (logged (trace w))
      \/ exists r kind msg,
           In r src /\ Error json_loads r kind msg /\ record = log_line kind msg).

Lemma send_command_logs method params w :
  incl (inbox (snd (send_command method params w))) (inbox w)
  /\ logs_from (inbox w) w (snd (send_command method params w)).
Proof.
  destruct w as [n inb c tr].
  unfold _send_command, bind, ws_send, ws_recv, loads, get, subscript,
    logging_error, emit, ret, raise; cbn.
  destruct c; cbn; [split; [apply incl_refl | now left]|].
  assert (forall text record,
             In record (logged (tr ++ [EvSend text])) -> In record (logged tr)) as Hs.
  { intros text record. rewrite logged_app. cbn. now rewrite app_nil_r. }
  assert (forall text r record,
             In record (logged ((tr ++ [EvSend text]) ++ [EvRecv r])) ->
             In record (logged tr)) as Hr.
  { intros text r record. rewrite !logged_app. cbn. now rewrite !app_nil_r. }
  destruct inb as [|r rest]; cbn.
  { split; [apply incl_refl|]. intros record H. left. eapply Hs, H. }
  assert (incl rest (r :: rest)) as Hincl by (apply incl_tl, incl_refl).
  assert (incl rest (r :: rest)
          /\ logs_from (r :: rest) (mkWorld n (r :: rest) false tr)
               (mkWorld n rest (gone rest)
                  ((tr ++ [EvSend (wire method params)]) ++ [EvRecv r])))
    as Plain.
  { split; [exact Hincl|]. intros record H. left. eapply Hr, H. }
  destruct (r =? "")%string eqn:Er; cbn; [apply Plain|].
  apply String.eqb_neq in Er.
  destruct (json_loads r) as [v|] eqn:El; cbn; [|apply Plain].
  destruct v; cbn; try apply Plain.
  destruct (dict_get d "type") as [t|] eqn:Et; cbn; [|apply Plain].
  destruct (eq_str t "success") eqn:Es; cbn.
  { destruct (dict_get d "result"); cbn; apply Plain. }
  destruct (eq_str t "error") eqn:Ee; cbn; [|apply Plain].
  apply eq_str_true in Ee. subst t.
  destruct (dict_get d "error") as [k|] eqn:Ek; cbn; [|apply Plain].
  destruct (dict_get d "message") as [m|] eqn:Em; cbn; [|apply Plain].
  split; [exact Hincl|].
  intros record H. rewrite !logged_app in H. cbn in H. rewrite !app_nil_r in H.
  apply in_app_or in H. destruct H as [H | [<- | []]]; [now left|].
  right. exists r, k, m. split; [now left|]. split; [|reflexivity].
  split; [exact Er|]. exists d. repeat split; assumption.
Qed.

(** X17. [execute] logs nothing of its own: every record it adds to the log
    is the kind and message of an error envelope that the server sent on
    this connection. *)
Theorem X17_logs_only_error_envelopes (port : Z) (method : string) (params : json)
    (w : World) (record : string) :
  In record (logged (trace (snd (exec port method params w)))) ->
  In record (logged (trace w))
  \/ exists script later r kind msg,
       net w (endpoint port) = script :: later
       /\ In r script
       /\ Error json_loads r kind msg
       /\ record = log_line kind msg.
Proof.
  destruct (net w (endpoint port)) as [|script later] eqn:Hnet.
  { rewrite (execute_refused _ _ _ _ _ _ _ Hnet). cbn [snd trace].
    rewrite logged_app. cbn. rewrite app_nil_r. now left. }
  rewrite (execute_accepted _ _ _ _ _ _ _ _ _ Hnet).
  set (w0 := mkWorld (update (net w) (endpoint port) later) script (gone script)
                     (trace w ++ [EvConnect (endpoint port)])).
  assert (forall w', incl (inbox w') script -> logs_from script w0 w' ->
                     logs_from script w w') as Hstart.
  { intros w' _ H rec Hin. destruct (H rec Hin) as [H0|H0]; [left|now right].
    subst w0. cbn [trace] in H0. rewrite logged_app in H0. cbn in H0.
    now rewrite app_nil_r in H0. }
  assert (forall m ps wa,
             incl (inbox wa) script -> logs_from script w0 wa ->
             incl (inbox (snd (send_command m ps wa))) script
             /\ logs_from script w0 (snd (send_command m ps wa))) as Hstep.
  { intros m ps wa Hi Hl.
    destruct (send_command_logs m ps wa) as (Hi' & Hl').
    split; [intros x Hx; apply Hi, Hi', Hx|].
    intros rec Hin. destruct (Hl' rec Hin) as [H0 | (r & k & ms & Hr & He & ->)].
    - now apply Hl.
    - right. exists r, k, ms. auto. }
  assert (exists w2,
             snd (with_ enter exit
                    (fun _ => Session___call__ json_dumps json_loads py_repr method params)
                    (ret JNull) w0) = w2
             /\ logs_from script w w2) as (w2 & E2 & Hl2).
  { eexists. split; [reflexivity|].
    assert (incl (inbox w0) script) as Hi0 by apply incl_refl.
    assert (logs_from script w0 w0) as Hl0 by (intros rec Hin; now left).
    destruct (Hstep "session.new" (JObj [("capabilities", JObj [])]) w0 Hi0 Hl0)
      as (Hi1 & Hl1).
    rewrite <- (enter_world json_dumps json_loads py_repr) in Hi1, Hl1.
    unfold with_.
    destruct (enter w0) as [[[]|e1] w1]; cbn [snd] in *; [|now apply Hstart].
    unfold Session___call__.
    destruct (Hstep method params w1 Hi1 Hl1) as (Hi2 & Hl2).
    destruct (send_command method params w1) as [[b|e2] w2]; cbn [snd] in *.
    - destruct (Hstep "session.end" (JObj []) w2 Hi2 Hl2) as (Hi3 & Hl3).
      rewrite <- (exit_world json_dumps json_loads py_repr None) in Hi3, Hl3.
      destruct (exit None w2) as [[b3|e3] w3]; cbn [snd] in *; now apply Hstart.
    - destruct (Hstep "session.end" (JObj []) w2 Hi2 Hl2) as (Hi3 & Hl3).
      rewrite <- (exit_world json_dumps json_loads py_repr (Some e2)) in Hi3, Hl3.
      destruct (exit (Some e2) w2) as [[[|]|e3] w3]; cbn [snd] in *;
        now apply Hstart. }
  destruct (with_ _ _ _ _ w0) as [o w2']. cbn [snd] in E2. subst w2'.
  cbn [snd trace]. rewrite logged_app. cbn. rewrite app_nil_r.
  intro Hin. destruct (Hl2 record Hin) as [H | (r & k & ms & Hr & He & ->)];
    [now left|].
  right. exists script, later, r, k, ms. auto.
Qed.

End MoreTheory.

(* ================================================================= *)
(** * The program on literal wire text *)

Import PyJson Wire.

Lemma new_ok_created : SessionCreated loads new_ok.
Proof.
  exists [("sessionId", JStr "s-1"); ("capabilities", JObj [])], (JStr "s-1").
  split; [|split; reflexivity].
  split; [discriminate|]. eexists. split; [vm_compute; reflexivity|].
  split; reflexivity.
Qed.

Lemma error_is_error kind msg :
  loads (error kind msg)
  = Some (JObj [("type", JStr "error"); ("error", JStr kind); ("message", JStr msg)]) ->
  Error loads (error kind msg) (JStr kind) (JStr msg).
Proof.
  intro H. split; [discriminate|]. eexists. split; [exact H|].
  repeat split.
Qed.

Lemma end_ok_ended : SessionEnded loads end_ok.
Proof.
  exists (JObj []). split; [|discriminate].
  split; [discriminate|]. eexists. split; [vm_compute; reflexivity|].
  split; reflexivity.
Qed.

Lemma C1_witness :
  fst (run_execute 9222 "browsingContext.create" (JObj [("type", JStr "tab")])
         (serving 9222 [session (success (obj1 "context" "ctx-1"))]))
  = Return (JObj [("context", JStr "ctx-1")]).
Proof.
  apply (C1_execute_returns_result dumps loads repr 9222 "browsingContext.create"
           (JObj [("type", JStr "tab")])
           (serving 9222 [session (success (obj1 "context" "ctx-1"))])
           new_ok (success (obj1 "context" "ctx-1")) end_ok [] []).
  - reflexivity.
  - exact new_ok_created.
  - split; [discriminate|]. eexists. split; [vm_compute; reflexivity|].
    split; reflexivity.
  - exact end_ok_ended.
Defined.

Lemma C7_witness :
  run_send_command "browsingContext.navigate"
    (JObj [("context", JStr "abc"); ("url", JStr "https://x")])
    (mkWorld (fun _ => []) [success (obj1 "url" "https://x")] false [])
  = (Return (JObj [("url", JStr "https://x")]),
     mkWorld (fun _ => []) [] true
       [EvSend (dumps (JObj [("id", JNum 1);
                             ("method", JStr "browsingContext.navigate");
                             ("params", JObj [("context", JStr "abc");
                                              ("url", JStr "https://x")])]));
        EvRecv (success (obj1 "url" "https://x"))]).
Proof.
  apply (C7_round_trip dumps loads repr "browsingContext.navigate"
           (success (obj1 "url" "https://x")) (fun _ => []) [] []).
  - discriminate.
  - vm_compute. reflexivity.
Defined.

(** *** C2 *)

(** Against C2 as stated: a reply that is not JSON makes [execute] raise, and
    a reply with another discriminator is dropped without a log record. *)
Lemma C2_counterexample :
  fst (run_execute 9222 "browsingContext.create" (JObj [("type", JStr "tab")])
         (serving 9222 [session "oops"]))
  = Raise JSONDecodeError
  /\ fst (run_execute 9222 "browsingContext.create" (JObj [("type", JStr "tab")])
           (serving 9222 [session stray_event]))
     = Return JNull
  /\ logged (trace (snd (run_execute 9222 "browsingContext.create"
                           (JObj [("type", JStr "tab")])
                           (serving 9222 [session stray_event]))))
     = [].
Proof. vm_compute. repeat split. Qed.

Lemma C2_witness :
  fst (run_execute 9222 "browsingContext.create" (JObj [("type", JStr "tab")])
         (serving 9222 [session (error "unknown command" "no such method")]))
  = Return JNull
  /\ logged (trace (snd (run_execute 9222 "browsingContext.create"
                           (JObj [("type", JStr "tab")])
                           (serving 9222
                              [session (error "unknown command" "no such method")]))))
     = ["Error: unknown command, Message: no such method"].
Proof.
  destruct (C2_method_level_failures dumps loads repr 9222 "browsingContext.create"
              (JObj [("type", JStr "tab")])
              (serving 9222 [session (error "unknown command" "no such method")])
              new_ok (error "unknown command" "no such method") end_ok [] []
              eq_refl new_ok_created end_ok_ended) as (Herr & _ & _).
  apply (Herr (JStr "unknown command") (JStr "no such method")).
  apply error_is_error. vm_compute. reflexivity.
Defined.

(** *** C3 *)

(** Against C3 as stated: answers that give [session.new] or [session.end]
    nothing usable and yet do not fail by the assertion.  A success result
    without a session identifier raises [KeyError]; text that is not JSON in
    answer to [session.end] raises the decoder's exception. *)
Lemma C3_counterexample :
  fst (run_execute 9222 "browsingContext.create" (JObj [("type", JStr "tab")])
         (serving 9222 [[success (obj1 "status" "ok")]]))
  = Raise (KeyError "sessionId")
  /\ fst (run_execute 9222 "browsingContext.create" (JObj [("type", JStr "tab")])
           (serving 9222 [[new_ok; success (obj1 "context" "ctx-1"); "oops"]]))
     = Raise JSONDecodeError.
Proof. vm_compute. split; reflexivity. Qed.

Lemma C3_witness :
  fst (run_execute 9222 "browsingContext.create" (JObj [("type", JStr "tab")])
         (serving 9222 [[error "session not created" "busy"]]))
  = Raise AssertionError
  /\ sent (trace (snd (run_execute 9222 "browsingContext.create"
                         (JObj [("type", JStr "tab")])
                         (serving 9222 [[error "session not created" "busy"]]))))
     = [dumps (_make_command "session.new" (JObj [("capabilities", JObj [])]))]
  /\ closed (snd (run_execute 9222 "browsingContext.create"
                    (JObj [("type", JStr "tab")])
                    (serving 9222 [[error "session not created" "busy"]])))
     = true.
Proof.
  assert (NotCreated loads (error "session not created" "busy")) as Hbad.
  { left. left. exists (JStr "session not created"), (JStr "busy").
    apply error_is_error. vm_compute. reflexivity. }
  destruct (C3_lifecycle_failure_is_fatal dumps loads repr 9222
              "browsingContext.create" (JObj [("type", JStr "tab")])
              (serving 9222 [[error "session not created" "busy"]])
              (error "session not created" "busy") [] [] eq_refl)
    as (Hany & Hassert & _).
  split; [exact (Hassert Hbad)|].
  exact (proj2 (Hany (not_created_excludes_created loads _ Hbad))).
Defined.

(** *** C4 *)

(** Against C4 as stated: the caller has no say in the host.  A call on port
    9222 connects to [localhost], and no call at all, whatever its arguments
    and whatever the network, connects to [ws://example.org:9222/session]. *)
Lemma C4_counterexample :
  connected (trace (snd (run_execute 9222 "session.status" JNull (serving 9222 []))))
  = ["ws://localhost:9222/session"]
  /\ ~ exists port method params network,
        In "ws://example.org:9222/session"
           (connected (trace (snd (run_execute port method params
                                     (mkWorld network [] true []))))).
Proof.
  split; [vm_compute; reflexivity|].
  intros (port & method & params & network & Hin).
  unfold run_execute in Hin. rewrite execute_connected in Hin.
  cbn in Hin. destruct Hin as [H|[]].
  unfold endpoint in H. cbn in H. discriminate.
Qed.

(** *** C5 *)

(** Against C5 as stated: when [session.new] is refused with an error
    envelope, the call opens, sends [session.new], logs, and closes; the
    method and [session.end] are never sent. *)
Lemma C5_counterexample :
  run_execute 9222 "browsingContext.create" (JObj [("type", JStr "tab")])
    (serving 9222 [[error "session not created" "busy"]])
  = (Raise AssertionError,
     mkWorld (update (net (serving 9222 [[error "session not created" "busy"]]))
                (endpoint 9222) [])
       [] true
       [EvConnect "ws://localhost:9222/session";
        EvSend (dumps (_make_command "session.new" (JObj [("capabilities", JObj [])])));
        EvRecv (error "session not created" "busy");
        EvLog "Error: session not created, Message: busy";
        EvClose]).
Proof. vm_compute. reflexivity. Qed.

Lemma C5_witness :
  exists body,
    trace (snd (run_execute 9222 "browsingContext.create" (JObj [("type", JStr "tab")])
                  (serving 9222 [session (success (obj1 "context" "ctx-1"))])))
    = EvConnect "ws://localhost:9222/session" :: body ++ [EvClose]
    /\ sent body
       = [dumps (_make_command "session.new" (JObj [("capabilities", JObj [])]));
          dumps (_make_command "browsingContext.create" (JObj [("type", JStr "tab")]));
          dumps (_make_command "session.end" (JObj []))].
Proof.
  destruct (C5_call_sequence dumps loads repr 9222 "browsingContext.create"
              (JObj [("type", JStr "tab")])
              (serving 9222 [session (success (obj1 "context" "ctx-1"))])
              (session (success (obj1 "context" "ctx-1"))) [] eq_refl)
    as (body & Htr & _ & _ & _ & _ & Hok).
  exists body. split; [exact Htr|].
  exact (Hok new_ok (success (obj1 "context" "ctx-1")) end_ok [] eq_refl new_ok_created).
Defined.

(** A peer that closes the connection after answering the method never gets
    [session.end]: the send raises and two commands were sent.  A peer that
    closes it right after accepting gets nothing at all. *)
Lemma peer_leaves_after_the_method :
  fst (run_execute 9222 "browsingContext.create" (JObj [("type", JStr "tab")])
         (serving 9222 [[new_ok; success (obj1 "context" "ctx-1")]]))
  = Raise ConnectionClosed
  /\ sent (trace (snd (run_execute 9222 "browsingContext.create"
                         (JObj [("type", JStr "tab")])
                         (serving 9222 [[new_ok; success (obj1 "context" "ctx-1")]]))))
     = [dumps (_make_command "session.new" (JObj [("capabilities", JObj [])]));
        dumps (_make_command "browsingContext.create" (JObj [("type", JStr "tab")]))].
Proof. vm_compute. split; reflexivity. Qed.

Lemma peer_leaves_at_once :
  fst (run_execute 9222 "browsingContext.create" (JObj [("type", JStr "tab")])
         (serving 9222 [[]]))
  = Raise ConnectionClosed
  /\ trace (snd (run_execute 9222 "browsingContext.create"
                   (JObj [("type", JStr "tab")]) (serving 9222 [[]])))
     = [EvConnect "ws://localhost:9222/session"; EvClose].
Proof. vm_compute. split; reflexivity. Qed.

(** *** C8, C9, C10 *)

Lemma C8_witness :
  exists w1 w2 : World,
    run_execute 9222 "browsingContext.create" (JObj [("type", JStr "tab")])
      (serving 9222 [session (success (obj1 "context" "ctx-1"));
                     session (success (obj1 "url" "https://example.com"))])
    = (Return (JObj [("context", JStr "ctx-1")]), w1)
    /\ run_create_tab (Browser.mkBrowser 9222)
         (serving 9222 [session (success (obj1 "context" "ctx-1"));
                        session (success (obj1 "url" "https://example.com"))])
       = (Return (Some (Tab.mkTab 9222 (JStr "ctx-1") (JStr ""))), w1)
    /\ run_navigate (Tab.mkTab 9222 (JStr "ctx-1") (JStr "")) "https://example.com" w1
       = (Return true,
          Tab.mkTab 9222 (JStr "ctx-1") (JStr "https://example.com"), w2).
Proof.
  apply (C8_create_then_navigate dumps loads repr 9222
           (serving 9222 [session (success (obj1 "context" "ctx-1"));
                          session (success (obj1 "url" "https://example.com"))])
           "https://example.com"
           new_ok (success (obj1 "context" "ctx-1")) end_ok
           new_ok (success (obj1 "url" "https://example.com")) end_ok [] [] []).
  - reflexivity.
  - exact new_ok_created.
  - exact end_ok_ended.
  - exact new_ok_created.
  - exact end_ok_ended.
  - discriminate.
  - vm_compute. reflexivity.
  - discriminate.
  - vm_compute. reflexivity.
Defined.

Lemma C9_witness :
  fst (run_navigate (Tab.mkTab 9222 (JStr "ctx-1") (JStr "about:blank"))
         "https://example.com"
         (serving 9222 [session (error "unknown error" "net::ERR_NAME_NOT_RESOLVED")]))
  = (Return false, Tab.mkTab 9222 (JStr "ctx-1") (JStr "about:blank")).
Proof.
  destruct (C9_tab_frame dumps loads repr
              (Tab.mkTab 9222 (JStr "ctx-1") (JStr "about:blank"))
              "https://example.com"
              (serving 9222 [session (error "unknown error" "net::ERR_NAME_NOT_RESOLVED")]))
    as (Hnav & _).
  apply (Hnav JNull).
  - vm_compute. reflexivity.
  - reflexivity.
Defined.

Lemma C10_witness :
  fst (run_get_tabs (Browser.mkBrowser 9222) (serving 9222 [session tree_reply]))
  = Return [Tab.mkTab 9222 (JStr "ctx-1") (JStr "https://example.com");
            Tab.mkTab 9222 (JStr "ctx-2") (JStr "about:blank")].
Proof.
  destruct (C10_get_tabs dumps loads repr (Browser.mkBrowser 9222)
              (serving 9222 [session tree_reply])) as (_ & Htabs).
  apply (Htabs
           [("contexts",
             JList [JObj [("context", JStr "ctx-1"); ("url", JStr "https://example.com")];
                    JObj [("context", JStr "ctx-2"); ("url", JStr "about:blank")]])]
           [JObj [("context", JStr "ctx-1"); ("url", JStr "https://example.com")];
            JObj [("context", JStr "ctx-2"); ("url", JStr "about:blank")]]).
  - vm_compute. reflexivity.
  - reflexivity.
  - reflexivity.
Defined.

(* ================================================================= *)
(** * The further properties on literal wire text *)

Import Replies.

Lemma X1_witness :
  fst (run_execute 9222 "session.status" JNull (serving 9222 []))
  = Raise ConnectionError
  /\ trace (snd (run_execute 9222 "session.status" JNull (serving 9222 [])))
     = [EvConnect "ws://localhost:9222/session"].
Proof.
  apply (X1_refused_connection dumps loads repr 9222 "session.status" JNull
           (serving 9222 [])).
  reflexivity.
Defined.

Lemma X2_witness :
  exists r1 r2 r3 rest later,
    net (serving 9222 [session (success (obj1 "context" "ctx-1"))]) (endpoint 9222)
    = (r1 :: r2 :: r3 :: rest) :: later
    /\ SessionCreated loads r1
    /\ SessionEnded loads r3
    /\ (Success loads r2 (JObj [("context", JStr "ctx-1")])
        \/ (JObj [("context", JStr "ctx-1")] = JNull /\ Absent loads r2)).
Proof.
  apply (X2_return_means_full_lifecycle dumps loads repr 9222
           "browsingContext.create" (JObj [("type", JStr "tab")])
           (serving 9222 [session (success (obj1 "context" "ctx-1"))])).
  vm_compute. reflexivity.
Defined.

Lemma X3_witness :
  fst (run_send_command "session.status" JNull
         (mkWorld (fun _ => []) ["[1]"] false []))
  = Raise AttributeError.
Proof.
  destruct (X3_incomplete_envelopes dumps loads repr "session.status" JNull
              (fun _ => []) "[1]" [] [] (JList [JNum 1])) as (Hlist & _).
  - discriminate.
  - vm_compute. reflexivity.
  - apply Hlist. discriminate.
Defined.

Lemma X4_witness :
  fst (run_close tab1 (serving 9222 [session (success "{}")])) = Return true.
Proof.
  destruct (X4_close_reports_any_result dumps loads repr tab1
              (serving 9222 [session (success "{}")])
              new_ok (success "{}") end_ok [] [] eq_refl
              new_ok_created end_ok_ended) as (Hok & _).
  apply (Hok (JObj [])); [|discriminate].
  split; [discriminate|]. eexists. split; [vm_compute; reflexivity|].
  split; reflexivity.
Defined.

Lemma X5_witness :
  fst (run_navigate tab1 "https://example.com" (serving 9222 [session (success "{}")]))
  = (Return false, tab1)
  /\ fst (run_reload tab1 (serving 9222 [session (success "{}")])) = (Return false, tab1)
  /\ fst (run_create_tab (Browser.mkBrowser 9222) (serving 9222 [session (success "{}")]))
     = Return None
  /\ fst (run_get_tabs (Browser.mkBrowser 9222) (serving 9222 [session (success "{}")]))
     = Return []
  /\ fst (run_evaluate tab1 "document.title"
            (mkProcess (serving 9222 [session (success "{}")]) []))
     = Return JNull
  /\ stdout (snd (run_evaluate tab1 "document.title"
                    (mkProcess (serving 9222 [session (success "{}")]) [])))
     = [].
Proof.
  apply (X5_empty_result_is_failure dumps loads repr tab1 "https://example.com"
           "document.title" (serving 9222 [session (success "{}")]) [] (JObj [])
           new_ok (success "{}") end_ok [] []).
  - reflexivity.
  - exact new_ok_created.
  - split; [discriminate|]. eexists. split; [vm_compute; reflexivity|].
    split; reflexivity.
  - reflexivity.
  - exact end_ok_ended.
Defined.

Lemma X6_witness :
  JObj [("type", JStr "string"); ("value", JStr "Hi")] = JNull
  \/ truthy (JObj [("type", JStr "string"); ("value", JStr "Hi")]) = true.
Proof.
  apply (X6_evaluate_none_or_truthy dumps loads repr tab1 "document.title"
           (process (serving 9222 [session (evaluated (remote_string "Hi"))]))).
  vm_compute. reflexivity.
Defined.

Lemma X7_witness :
  stdout (snd (run_evaluate tab1 "boom()" (process (serving 9222 [session threw]))))
  = ["Evaluated script: boom() -> {'type': 'exception', 'realm': 'r-1'}"]
  /\ fst (run_evaluate tab1 "boom()" (process (serving 9222 [session threw])))
     = Return JNull.
Proof.
  destruct (X7_evaluate_result_entry dumps loads repr tab1 "boom()"
              (process (serving 9222 [session threw]))
              [("type", JStr "exception"); ("realm", JStr "r-1")]
              (snd (run_execute 9222 "script.evaluate" (evaluate_params tab1 "boom()")
                      (serving 9222 [session threw]))))
    as (Hout & _ & Hnone & _).
  - vm_compute. reflexivity.
  - discriminate.
  - split; [exact Hout | apply Hnone; reflexivity].
Defined.

Lemma X8_witness :
  exists d r,
    fst (run_execute 9222 "script.evaluate"
           (evaluate_params tab1 " document.body.click() ")
           (serving 9222 [session (evaluated (remote "undefined"))]))
    = Return (JObj d)
    /\ dict_get d "result" = Some r /\ truthy r = true.
Proof.
  destruct (X8_actions_succeed_on_result dumps loads repr tab1 "document.body" "" ""
              (process (serving 9222 [session (evaluated (remote "undefined"))])))
    as (Hclick & _).
  apply (Hclick true); [vm_compute|]; reflexivity.
Defined.

Lemma X9_witness :
  fst (run_get_element_attribute tab1 "document.body" "foo"
         (process (serving 9222 [session (evaluated (remote "undefined"))])))
  = Raise (KeyError "value").
Proof.
  destruct (X9_attribute_readers dumps loads repr tab1 "document.body" "foo"
              (process (serving 9222 [session (evaluated (remote "undefined"))])))
    as (Hget & _).
  destruct (Hget [("type", JStr "undefined")]
              (snd (run_evaluate tab1 " document.body.foo "
                      (process (serving 9222 [session (evaluated (remote "undefined"))])))))
    as (_ & Hvalue).
  - vm_compute. reflexivity.
  - unfold run_get_element_attribute.
    now rewrite (Hvalue (JStr "undefined") eq_refl eq_refl).
Defined.

Lemma X10_witness :
  fst (run_is_element_found tab1 "document.querySelector('#gone')"
         (process (serving 9222 [session (evaluated (remote "null"))])))
  = Return (JBool false).
Proof.
  destruct (X10_is_element_found_is_optional_bool dumps loads repr tab1
              "document.querySelector('#gone')"
              (process (serving 9222 [session (evaluated (remote "null"))])))
    as (_ & Htype).
  unfold run_is_element_found.
  rewrite (Htype [("type", JStr "null")]
             (snd (run_evaluate tab1 "document.querySelector('#gone')"
                     (process (serving 9222 [session (evaluated (remote "null"))]))))
             (JStr "null")).
  - reflexivity.
  - vm_compute. reflexivity.
  - reflexivity.
Defined.

Lemma X11_witness :
  fst (run_is_element_equal_to tab1 "document.body" "null"
         (process (serving 9222 [session (evaluated (remote "null"))])))
  = Raise (KeyError "value").
Proof.
  destruct (X11_untyped_readers dumps loads repr tab1 "document.body" "null"
              (process (serving 9222 [session (evaluated (remote "null"))])))
    as (_ & Hequal).
  unfold run_is_element_equal_to.
  rewrite (Hequal [("type", JStr "null")]
             (snd (run_evaluate tab1 " document.body === null "
                     (process (serving 9222 [session (evaluated (remote "null"))]))))).
  - reflexivity.
  - vm_compute. reflexivity.
Defined.

Lemma X12_witness :
  fst (run_create_tab (Browser.mkBrowser 9222)
         (serving 9222 [session (success (obj1 "userContext" "default"))]))
  = Raise (KeyError "context").
Proof.
  destruct (X12_create_tab dumps loads repr (Browser.mkBrowser 9222)
              (serving 9222 [session (success (obj1 "userContext" "default"))]))
    as (_ & _ & Hmissing).
  apply (Hmissing [("userContext", JStr "default")]).
  - vm_compute. reflexivity.
  - discriminate.
  - reflexivity.
Defined.

Lemma X13_witness :
  exists e,
    fst (run_get_tabs (Browser.mkBrowser 9222) (serving 9222 [session broken_tree]))
    = Raise e
    /\ (e = TypeError \/ e = KeyError "context" \/ e = KeyError "url").
Proof.
  apply (X13_get_tabs_all_or_nothing dumps loads repr (Browser.mkBrowser 9222)
           (serving 9222 [session broken_tree])
           [("contexts",
             JList [JObj [("context", JStr "ctx-1"); ("url", JStr "https://example.com")];
                    JObj [("context", JStr "ctx-2")]])]
           [JObj [("context", JStr "ctx-1"); ("url", JStr "https://example.com")];
            JObj [("context", JStr "ctx-2")]]).
  - vm_compute. reflexivity.
  - reflexivity.
  - exists (JObj [("context", JStr "ctx-2")]). split; [right; now left | reflexivity].
Defined.

Lemma X14_witness :
  fst (run_get_tabs (Browser.mkBrowser 9222) (serving 9222 [session empty_contexts]))
  = Return [].
Proof.
  destruct (X14_get_tabs_contexts_not_a_list dumps loads repr (Browser.mkBrowser 9222)
              (serving 9222 [session empty_contexts]) [("contexts", JObj [])])
    as (_ & Hempty & _).
  - vm_compute. reflexivity.
  - discriminate.
  - apply Hempty. now left.
Defined.

Lemma X15_witness :
  fst (run_navigate tab1 "https://example.com"
         (serving 9222 [session (success (obj1 "navigation" "nav-1"))]))
  = (Raise (KeyError "url"), tab1).
Proof.
  destruct (X15_navigate_reload_missing_url dumps loads repr tab1 "https://example.com"
              (serving 9222 [session (success (obj1 "navigation" "nav-1"))]))
    as (Hnav & _).
  unfold run_navigate.
  rewrite (Hnav [("navigation", JStr "nav-1")]
             (snd (run_execute 9222 "browsingContext.navigate"
                     (JObj [("url", JStr "https://example.com");
                            ("context", JStr "ctx-1"); ("wait", JStr "complete")])
                     (serving 9222 [session (success (obj1 "navigation" "nav-1"))])))).
  - reflexivity.
  - vm_compute. reflexivity.
  - discriminate.
  - reflexivity.
Defined.

Lemma X17_witness :
  In "Error: unknown command, Message: no such method"
     (logged (trace (serving 9222 [session (error "unknown command" "no such method")])))
  \/ exists script later r kind msg,
       net (serving 9222 [session (error "unknown command" "no such method")])
         (endpoint 9222) = script :: later
       /\ In r script
       /\ Error loads r kind msg
       /\ "Error: unknown command, Message: no such method"
          = ("Error: " ++ py_str repr kind ++ ", Message: " ++ py_str repr msg)%string.
Proof.
  apply (X17_logs_only_error_envelopes dumps loads repr 9222 "browsingContext.create"
           (JObj [("type", JStr "tab")])
           (serving 9222 [session (error "unknown command" "no such method")])).
  vm_compute. left. reflexivity.
Defined.
